(* ===== verification/_CoqProject ===== *)
-Q . S2P
Prelude.v
JsValue.v
Json.v
JsDate.v
Encoding.v
Runtime.v
Booking.v
Availability.v
