(* ===== verification/Prelude.v ===== *)
(** * Safebook: a verification development of the two Netlify functions

    The repository holds two serverless HTTP handlers written in
    JavaScript (Node, Netlify functions) under
    [src/safestroke-booking/netlify:/functions:/]:

    - [book-appointment.js] ([exports.handler]): gates the HTTP method,
      checks the Acuity credentials in [process.env], parses the JSON
      body, checks five required fields all at once, builds a payload
      with defaults for [phone] and [notes], POSTs it to the Acuity
      appointments endpoint and shapes the answer;
    - [get-availability.js] ([exports.handler]): reads the appointment
      type and the debug flag from the query string, checks the
      credentials (with a soft placeholder answer when they are
      missing), computes the current and the next month from the
      clock, runs two isolated upstream queries, concatenates their
      slots and answers with the first 12 (or a diagnostic object).

    The handlers do not call each other; both depend on the JavaScript
    runtime: values and truthiness, [JSON.parse] / [JSON.stringify],
    [Date], [fetch], [process.env] and [console.error].

    ** Layout of the library

    - [Prelude] (this file): JavaScript strings as lists of UTF-16 code
      units ([jstr]), their literals, decidable equality, the shared
      list lemmas, the [safebook] hint database and tactics.
    - [JsValue]: the JavaScript values a JSON document denotes
      ([jsval]), truthiness ([truthy], the [!x] of the code), the [||]
      operator, property access ([get], throwing on [null] and
      [undefined]), [Array.isArray], [.length] and the [ToString] of
      integral numbers used in template literals.
    - [Json]: [JSON.stringify] (ECMA-262 SerializeJSONProperty,
      QuoteJSONString, the own-key order of OrdinaryOwnPropertyKeys) and
      [JSON.parse] (a recursive-descent parser with fuel; duplicate keys
      keep their first position and their last value, as
      CreateDataProperty does).
    - [JsDate]: the ECMA-262 time model written with its own
      definitions (Day, DayFromYear, YearFromTime, MonthFromTime,
      DateFromTime, MakeDay, MakeDate, TimeClip, LocalTime and UTC with
      a fixed time-zone offset), [Date.prototype.toISOString],
      [getFullYear], [getMonth], [new Date(y, m, d)], and the three date
      expressions of [get-availability.js] (lines 34, 42 and 43).
    - [Encoding]: [Buffer.from(s).toString("base64")]: UTF-8 encoding of
      UTF-16 code units (lone surrogates become U+FFFD) and RFC 4648
      Base64 with padding, used for the Basic authorization header.
    - [Runtime]: the effects the handlers use: a world (environment
      variables, clock, time zone, the upstream server's answers, the
      engine's error texts), a trace of outbound requests and log lines,
      and a state-and-exception monad [M] whose [try_catch] is the
      code's [try { } catch (e) { }]; the HTTP event and response
      records and the CORS header objects.
    - [Booking]: [book-appointment.js] as [Booking.handler].
    - [Availability]: [get-availability.js] as [Availability.handler].

    ** Modelling choices

    - A JavaScript string is a list of UTF-16 code units ([list Z]).
    - A JSON number is kept as an exact decimal [m * 10^e]. Of the
      rounding to binary64 that [JSON.parse] performs, the model keeps
      the part the handlers observe through truthiness: a magnitude of
      at most 2^-1075 rounds to [0] ([Json.round_number]; [1e-400] is
      falsy, [Json.parse_underflow], [Booking.booking_underflow_type]).
      Other rounding is not modelled: a literal with more than 17
      significant digits (e.g. [12345678901234567890]) is echoed by
      [JSON.stringify] with all its digits where Node prints the rounded
      double, and a literal of magnitude 2^1024 or more (e.g. [1e400])
      stays finite where Node has [Infinity] and prints [null]. Such
      values only reach a response inside the upstream's [data] or the
      booking's fields; every theorem is generic in those values.
    - [async]/[await]: each handler awaits every promise before going
      on, so an invocation is a sequential composition of steps; the
      monad threads the trace in that order.
    - Time zones are a fixed offset in milliseconds (no daylight saving
      switch inside one invocation).
    - The texts of engine-generated errors (the [message] of a
      [SyntaxError] or [TypeError]) differ between Node versions; they
      are parameters of the world.

    ** Theorems (PROJECT.json lists them as properties C1-C24)

    - Booking ([Booking.Booking]): method gating (C19, C20), the
      credential check before any parsing (C9), the all-at-once
      validation listing exactly the missing fields in the order of
      [required] (C2), the exact upstream request and answer on the
      success path (C3), the propagation of upstream statuses (C4), a
      network failure answered 500 (C16), the body [null] answered 500
      rather than 400 (C15), that the handler always answers (C13), and
      that it sends at most one request (C22).
    - Availability ([Availability.Availability]): the refinement of the
      handler by the abstract answer "first 12 of the current month's
      slots followed by the next month's" ([expected_slots], C1);
      failure isolation of the two queries (C6); the debug object (C12);
      the 400 on a missing type id whatever the other inputs (C10); the
      placeholder 35 days ahead (C11); method handling (C18, C21); the
      handler always answers (C14) and sends at most two requests (C23);
      and the duplicated month (C8).
    - Effects ([Runtime.Runtime]): [sends_at_most k m] says that [m]
      only appends to the trace and appends at most [k] requests; it is
      proved for every primitive and composed through [bind],
      [try_catch] and branches (hint database [effects], tactic
      [sends_bound]).
    - JSON ([Json.Json]): every successful parse step consumes input
      ([parse_shrink]), hence the fuel of [parse] never runs out (C24).
    - Date ([JsDate.JsDate]): the year and month of a time value are
      characterised by DayFromYear and the month table
      ([year_from_day_spec], [fields_of_day]); in UTC the next-month
      token is the successor of the current one (C7); east of UTC, and
      west of UTC around the turn of a month, it equals the current
      month (C5, C17), a defect of line 43.

    ** Bounds and fuel

    - Dates are proved for years 100 to 9998, where [new Date(y, m, 1)]
      is not in the 0-99 two-digit range and the next month is within
      TimeClip's range; time-zone offsets are at most one day.
    - [Json.parse] runs [parse_value] with fuel [2 * length s + 1]. Each
      call decreases the fuel; only the call from [parse_elements] to
      [parse_value] consumes no code unit, and it is followed by one
      that does, so the fuel is enough: from that bound on the result
      no longer depends on it ([Json.parse_fuel_adequate], C24).
    - [JsValue.digits] runs on fuel [log2 n + 1], more than the number of
      decimal digits ([digits_length]).

    ** Not modelled

    - Network transport, TLS and Netlify's decoding of the HTTP request
      into the event object; the upstream server is an arbitrary
      function from the request index and the request to an answer.
    - The exact V8 message texts (parameters [eng] of the world; the
      examples use Node 18's) and binary64 rounding (see above).
    - What [console.error] prints for an [Error] object: a log line
      records the label and the error's message.
    - [new Date()] (line 41) is the clock value itself, without
      TimeClip: a real clock is always within its range.
    - V8's limit on the number of arguments of a call, which
      [allResults.push(...data)] can exceed for a very large upstream
      array (a [RangeError] caught by the month's [try]): the model
      pushes any number of slots.
*)

From Stdlib Require Import String Ascii.
From Stdlib Require Import List ZArith Bool Lia.
Import ListNotations.

(** ** JavaScript strings *)

(** A JavaScript string: a sequence of UTF-16 code units. *)
Definition jstr := list Z.

(** The code units of an ASCII literal. *)
Definition js (s : string) : jstr :=
  map (fun a => Z.of_nat (nat_of_ascii a)) (list_ascii_of_string s).

(** A JSON text written with single quotes for double quotes (for the
    concrete examples). *)
Definition jsq (s : string) : jstr := map (fun c => if (c =? 39)%Z then 34%Z else c) (js s).

Definition jstr_eq_dec : forall a b : jstr, {a = b} + {a <> b} :=
  list_eq_dec Z.eq_dec.

(** Strict equality [===] on strings. *)
Definition jstr_eqb (a b : jstr) : bool :=
  if jstr_eq_dec a b then true else false.

Declare Scope js_scope.
Delimit Scope js_scope with js.
Notation "a =s? b" := (jstr_eqb a b) (at level 70, no associativity) : js_scope.
Notation "a +s+ b" := (@app Z a b) (at level 60, right associativity) : js_scope.
Open Scope js_scope.

(** Association lists: the first binding wins. *)
Fixpoint assoc {V} (k : jstr) (l : list (jstr * V)) : option V :=
  match l with
  | [] => None
  | (k', v) :: l' => if k =s? k' then Some v else assoc k l'
  end.

Lemma jstr_eqb_eq a b : (a =s? b) = true <-> a = b.
Proof. unfold jstr_eqb. destruct (jstr_eq_dec a b); split; congruence. Qed.

Lemma jstr_eqb_refl a : (a =s? a) = true.
Proof. apply jstr_eqb_eq. reflexivity. Qed.

Lemma jstr_eqb_neq a b : a <> b -> (a =s? b) = false.
Proof. unfold jstr_eqb. destruct (jstr_eq_dec a b); congruence. Qed.

(** ** Lists *)

Lemma firstn_app_le {A} (n : nat) (l1 l2 : list A) :
  (n <= length l1)%nat -> firstn n (l1 ++ l2) = firstn n l1.
Proof.
  intros H. rewrite firstn_app.
  replace (n - length l1)%nat with 0%nat by lia. apply app_nil_r.
Qed.

Lemma firstn_app_ge {A} (n : nat) (l1 l2 : list A) :
  (length l1 <= n)%nat -> firstn n (l1 ++ l2) = l1 ++ firstn (n - length l1) l2.
Proof.
  intros H. rewrite firstn_app. rewrite firstn_all2 by exact H. reflexivity.
Qed.

Lemma firstn_app_length {A} (l1 l2 : list A) : firstn (length l1) (l1 ++ l2) = l1.
Proof. rewrite firstn_app, firstn_all, Nat.sub_diag. apply app_nil_r. Qed.

Lemma firstn_app3 {A} (a b c d : list A) :
  firstn (length (a ++ b ++ c)) (a ++ b ++ c ++ d) = a ++ b ++ c.
Proof. rewrite (app_assoc b c d), (app_assoc a (b ++ c) d). apply firstn_app_length. Qed.

Lemma length_firstn_le {A} (n : nat) (l : list A) : (length (firstn n l) <= n)%nat.
Proof. rewrite length_firstn. lia. Qed.

Lemma assoc_cons_eq {V} k (v : V) l : assoc k ((k, v) :: l) = Some v.
Proof. simpl. rewrite jstr_eqb_refl. reflexivity. Qed.

Lemma assoc_cons_neq {V} k k' (v : V) l :
  k <> k' -> assoc k ((k', v) :: l) = assoc k l.
Proof. intros H. simpl. rewrite jstr_eqb_neq by exact H. reflexivity. Qed.

(** ** Integer division by a positive constant *)

Lemma zdiv_bounds_lemma (a b : Z) : (0 < b -> b * (a / b) <= a < b * (a / b) + b)%Z.
Proof.
  intros Hb. pose proof (Z.div_mod a b) as H. pose proof (Z.mod_pos_bound a b Hb). lia.
Qed.

(** ** Automation *)

Create HintDb safebook.
#[export] Hint Rewrite @jstr_eqb_refl @assoc_cons_eq : safebook.
#[export] Hint Resolve jstr_eqb_refl length_firstn_le : safebook.

(** Invert a hypothesis and clean up. *)
Ltac inv H := inversion H; subst; clear H.

(** Replace each quotient [a / b] by a fresh variable bounded by
    [b * q <= a < b * q + b], so that [lia] can reason linearly. *)
Ltac zdiv_bounds :=
  repeat match goal with
         | |- context [(?a mod ?b)%Z] => rewrite (Z.mod_eq a b) by lia
         | H : context [(?a mod ?b)%Z] |- _ => rewrite (Z.mod_eq a b) in H by lia
         | |- context [(?a / ?b)%Z] =>
             let q := fresh "q" in
             pose proof (zdiv_bounds_lemma a b ltac:(lia));
             set (q := (a / b)%Z) in *; clearbody q
         | H : context [(?a / ?b)%Z] |- _ =>
             let q := fresh "q" in
             pose proof (zdiv_bounds_lemma a b ltac:(lia));
             set (q := (a / b)%Z) in *; clearbody q
         end.

(** Case on every integer comparison in the goal, with its meaning in
    [Prop] as a hypothesis. *)
Ltac no_if t := lazymatch t with context [if _ then _ else _] => fail | _ => idtac end.

Ltac zbool_cases :=
  repeat (match goal with
          | |- context [?c] =>
              lazymatch c with
              | (_ <? _)%Z => idtac | (_ <=? _)%Z => idtac | (_ =? _)%Z => idtac
              end;
              tryif (match c with context [?x] => is_var x end) then fail else idtac;
              let v := eval vm_compute in c in
              lazymatch v with true => idtac | false => idtac end;
              progress change c with v
          | |- context [(?a <? ?b)%Z] => no_if a; no_if b; destruct (Z.ltb_spec a b)
          | |- context [(?a <=? ?b)%Z] => no_if a; no_if b; destruct (Z.leb_spec a b)
          | |- context [(?a =? ?b)%Z] => no_if a; no_if b; destruct (Z.eqb_spec a b)
          end; cbv beta iota delta [orb andb negb]).

Lemma Z_range_split (x lo hi : Z) : (lo <= x <= hi -> x = lo \/ lo + 1 <= x <= hi)%Z.
Proof. lia. Qed.

(** Case analysis on a variable [x] bounded by [lo <= x <= hi] with
    constant bounds: one goal per value, [x] replaced by it. *)
Ltac enum_range x :=
  match goal with
  | H : (?lo <= x <= ?hi)%Z |- _ =>
      lazymatch eval vm_compute in (Z.ltb lo hi) with
      | false => assert (x = lo) by lia; subst x; clear H
      | true =>
          let lo' := eval vm_compute in (lo + 1)%Z in
          let H' := fresh in
          destruct (Z_range_split x lo hi H) as [-> | H'];
          [ clear H
          | clear H; assert ((lo' <= x <= hi)%Z) by lia; clear H'; enum_range x ]
      end
  end.

(** Split every [if] and [match] on a boolean test in the goal,
    keeping the test as an equation. *)
Ltac case_tests :=
  repeat match goal with
         | |- context [if ?b then _ else _] =>
             lazymatch b with
             | true => fail
             | false => fail
             | _ => destruct b eqn:?
             end
         end.
