(* ===== verification/JsValue.v ===== *)
(** * JsValue: the JavaScript values the handlers manipulate

    The values a JSON document denotes, plus [undefined] (a missing
    property), with the operations of the language the two handlers
    apply to them: truthiness ([!x], [x || y]), property access
    ([o[k]], [o.k], [o?.k]), [Array.isArray], and [ToString] as used by
    template literals and [String(...)]. Numbers are exact decimals
    [m * 10^e]; [Number::toString] (ECMA-262 6.1.6.1.20) is written out
    on them. *)

From Stdlib Require Import String Ascii.
From Stdlib Require Import List ZArith Bool Lia.
From S2P Require Import Prelude.
Import ListNotations.
Open Scope Z_scope.

Module JsValue.

(** A JavaScript value as produced by [JSON.parse], plus [undefined].
    Object properties are kept in creation order. *)
Inductive jsval : Type :=
| JUndefined
| JNull
| JBool (b : bool)
| JNum (m e : Z)                      (* the number m * 10^e *)
| JStr (s : jstr)
| JArr (vs : list jsval)
| JObj (kvs : list (jstr * jsval)).

(** Induction principle with hypotheses for the nested lists. *)
Section JsvalInd.
Variable P : jsval -> Prop.
Hypothesis HUndef : P JUndefined.
Hypothesis HNull : P JNull.
Hypothesis HBool : forall b, P (JBool b).
Hypothesis HNum : forall m e, P (JNum m e).
Hypothesis HStr : forall s, P (JStr s).
Hypothesis HArr : forall vs, Forall P vs -> P (JArr vs).
Hypothesis HObj : forall kvs, Forall (fun kv => P (snd kv)) kvs -> P (JObj kvs).

Fixpoint jsval_ind' (v : jsval) : P v :=
  match v with
  | JUndefined => HUndef
  | JNull => HNull
  | JBool b => HBool b
  | JNum m e => HNum m e
  | JStr s => HStr s
  | JArr vs =>
      HArr vs ((fix go (l : list jsval) : Forall P l :=
                  match l with
                  | [] => Forall_nil _
                  | x :: l' => Forall_cons _ (jsval_ind' x) (go l')
                  end) vs)
  | JObj kvs =>
      HObj kvs ((fix go (l : list (jstr * jsval)) : Forall (fun kv => P (snd kv)) l :=
                   match l with
                   | [] => Forall_nil _
                   | kv :: l' => Forall_cons _ (jsval_ind' (snd kv)) (go l')
                   end) kvs)
  end.
End JsvalInd.

(** ** Truthiness: ToBoolean (ECMA-262 7.1.2) *)

(** [undefined], [null], [false], [0], [-0] and [""] are falsy
    ([NaN] is not a JSON value). *)
Definition truthy (v : jsval) : bool :=
  match v with
  | JUndefined | JNull => false
  | JBool b => b
  | JNum m _ => negb (m =? 0)
  | JStr s => match s with [] => false | _ => true end
  | JArr _ | JObj _ => true
  end.

(** [a || b]: the first operand when it is truthy, else the second. *)
Definition js_or (a b : jsval) : jsval := if truthy a then a else b.

(** [Array.isArray]. *)
Definition is_array (v : jsval) : bool :=
  match v with JArr _ => true | _ => false end.

(** ** Decimal digits and Number::toString *)

(** The decimal digits of [n >= 0], most significant first: the last
    digit is pushed on [acc], then the digits of [n / 10]. A fuel of
    [log2 n + 1] exceeds the number of decimal digits. *)
Fixpoint digits_fuel (fuel : nat) (n : Z) (acc : jstr) : jstr :=
  match fuel with
  | O => acc
  | S f =>
      let acc' := (48 + n mod 10) :: acc in
      if n <? 10 then acc' else digits_fuel f (n / 10) acc'
  end.

Definition digits (n : Z) : jstr := digits_fuel (Z.to_nat (Z.log2 n) + 1) n [].

(** Strip trailing zeros of the mantissa so that it has the fewest
    digits, as Number::toString requires ([k] as small as possible). *)
Fixpoint strip_zeros (fuel : nat) (m e : Z) : Z * Z :=
  match fuel with
  | O => (m, e)
  | S f => if (m =? 0) || negb (m mod 10 =? 0) then (m, e)
           else strip_zeros f (m / 10) (e + 1)
  end.

Definition normalize (m e : Z) : Z * Z :=
  if m =? 0 then (0, 0) else strip_zeros (Z.to_nat (Z.log2 (Z.abs m)) + 1) m e.

(** Number::toString(x) for x = m * 10^e, radix 10. *)
Definition number_to_string (m0 e0 : Z) : jstr :=
  let '(m, e) := normalize m0 e0 in
  if m =? 0 then js "0" else
  let sgn := if m <? 0 then js "-" else [] in
  let s := digits (Z.abs m) in
  let k := Z.of_nat (length s) in
  let n := k + e in
  sgn ++
  (if (k <=? n) && (n <=? 21) then s ++ repeat 48 (Z.to_nat (n - k))
   else if (0 <? n) && (n <=? 21) then
     firstn (Z.to_nat n) s ++ [46] ++ skipn (Z.to_nat n) s
   else if (-6 <? n) && (n <=? 0) then
     js "0." ++ repeat 48 (Z.to_nat (- n)) ++ s
   else
     let e' := n - 1 in
     let mant := match s with
                 | [d] => [d]
                 | d :: rest => d :: 46 :: rest
                 | [] => []
                 end in
     mant ++ js "e" ++ (if e' <? 0 then js "-" else js "+")
          ++ digits (Z.abs e')).

(** The number value of an integer (a length, an HTTP status). *)
Definition int_val (z : Z) : jsval := JNum z 0.

(** ** ToString (ECMA-262 7.1.17) as in template literals *)

Fixpoint join_units (sep : jstr) (l : list jstr) : jstr :=
  match l with
  | [] => []
  | [x] => x
  | x :: l' => x ++ sep ++ join_units sep l'
  end.

(** [ToString]: arrays use [Array.prototype.toString] (a [join] with
    [","] where [null] and [undefined] give [""]); plain objects give
    ["[object Object]"]. *)
Fixpoint to_string (v : jsval) : jstr :=
  match v with
  | JUndefined => js "undefined"
  | JNull => js "null"
  | JBool true => js "true"
  | JBool false => js "false"
  | JNum m e => number_to_string m e
  | JStr s => s
  | JArr vs =>
      join_units (js ",")
        (map (fun x => match x with
                       | JUndefined | JNull => []
                       | _ => to_string x
                       end) vs)
  | JObj _ => js "[object Object]"
  end.

(** ** Property access *)

(** CanonicalNumericIndexString restricted to array indices: a decimal
    numeral without leading zeros whose value is below 2^32 - 1. *)
Definition array_index (k : jstr) : option Z :=
  match k with
  | [] => None
  | d :: rest =>
      if (d =? 48) && negb (match rest with [] => true | _ => false end) then None
      else if forallb (fun c => (48 <=? c) && (c <=? 57)) k then
        let i := fold_left (fun acc c => acc * 10 + (c - 48)) k 0 in
        if i <? 4294967295 then Some i else None
      else None
  end.

(** Element [i] of a list, [undefined] past its end. *)
Definition nth_or_undef {A} (i : Z) (l : list A) (f : A -> jsval) : jsval :=
  if i <? Z.of_nat (length l) then
    match nth_error l (Z.to_nat i) with Some x => f x | None => JUndefined end
  else JUndefined.

(** [v[k]] for own data properties; [None] stands for the [TypeError]
    thrown when [v] is [null] or [undefined]. Arrays and strings have
    [length] and index properties; other properties of the prototypes
    are not modelled (the code reads none of them). *)
Definition get (v : jsval) (k : jstr) : option jsval :=
  match v with
  | JUndefined | JNull => None
  | JObj kvs => Some (match assoc k kvs with Some x => x | None => JUndefined end)
  | JArr vs =>
      if k =s? js "length" then Some (int_val (Z.of_nat (length vs)))
      else match array_index k with
           | Some i => Some (nth_or_undef i vs (fun x => x))
           | None => Some JUndefined
           end
  | JStr s =>
      if k =s? js "length" then Some (int_val (Z.of_nat (length s)))
      else match array_index k with
           | Some i => Some (nth_or_undef i s (fun c => JStr [c]))
           | None => Some JUndefined
           end
  | JBool _ | JNum _ _ => Some JUndefined
  end.

(** [v?.k]: [undefined] when [v] is [null] or [undefined]. *)
Definition get_opt (v : jsval) (k : jstr) : jsval :=
  match get v k with Some x => x | None => JUndefined end.

(** ** Lemmas *)

Lemma digits_fuel_length (fuel : nat) (n : Z) (acc : jstr) (k : Z) :
  0 <= n < 10 ^ k -> 1 <= k ->
  Z.of_nat (length (digits_fuel fuel n acc)) <= k + Z.of_nat (length acc).
Proof.
  revert n acc k. induction fuel as [|f IH]; intros n acc k Hn Hk; simpl; [lia|].
  destruct (Z.ltb_spec n 10); simpl length; [lia|].
  assert (Hk2 : 2 <= k).
  { destruct (Z.le_gt_cases k 1); [|lia].
    assert (10 ^ k <= 10 ^ 1) by (apply Z.pow_le_mono_r; lia). lia. }
  assert (Hpow : 10 ^ k = 10 * 10 ^ (k - 1)).
  { rewrite <- Z.pow_succ_r by lia. f_equal. lia. }
  specialize (IH (n / 10) ((48 + n mod 10) :: acc) (k - 1)).
  simpl length in IH.
  assert (0 <= n / 10 < 10 ^ (k - 1)).
  { split; [apply Z.div_pos; lia|]. apply Z.div_lt_upper_bound; lia. }
  lia.
Qed.

(** A number below [10^w] has at most [w] digits. *)
Lemma digits_length (n : Z) (w : Z) :
  0 <= n < 10 ^ w -> 1 <= w -> Z.of_nat (length (digits n)) <= w.
Proof.
  intros Hn Hw. pose proof (digits_fuel_length (Z.to_nat (Z.log2 n) + 1) n [] w Hn Hw).
  unfold digits. simpl length in H. lia.
Qed.

(** Property reads fail only on [null] and [undefined]. *)
Lemma get_defined (v : jsval) (k : jstr) :
  v <> JNull -> v <> JUndefined -> get v k = Some (get_opt v k).
Proof.
  intros Hn Hu. unfold get_opt.
  destruct v; try congruence; cbn;
    repeat match goal with |- context [match ?x with _ => _ end] => destruct x end;
    reflexivity.
Qed.

End JsValue.
