(* ===== verification/Json.v ===== *)
(** * Json: [JSON.stringify] and [JSON.parse] on JavaScript values

    [stringify] follows ECMA-262 25.5.2 (SerializeJSONProperty,
    SerializeJSONObject, SerializeJSONArray, QuoteJSONString) for calls
    without replacer or indentation, the only form the handlers use.
    [parse] follows 25.5.1 without reviver: the JSON text grammar of
    RFC 8259, objects built with CreateDataProperty (a repeated key keeps
    its first position and takes the last value). *)

From Stdlib Require Import String Ascii.
From Stdlib Require Import List ZArith Bool Lia.
From S2P Require Import Prelude JsValue.
Import ListNotations.
Import JsValue.
Open Scope Z_scope.

Module Json.

(** ** Property order *)

(** OrdinaryOwnPropertyKeys: array-index keys in ascending numeric
    order, then the other string keys in creation order. *)
Fixpoint insert_index {V} (i : Z) (kv : jstr * V) (l : list (Z * (jstr * V)))
  : list (Z * (jstr * V)) :=
  match l with
  | [] => [(i, kv)]
  | (j, kv') :: l' => if i <=? j then (i, kv) :: l else (j, kv') :: insert_index i kv l'
  end.

Fixpoint index_keys {V} (kvs : list (jstr * V)) : list (Z * (jstr * V)) :=
  match kvs with
  | [] => []
  | (k, v) :: kvs' =>
      match array_index k with
      | Some i => insert_index i (k, v) (index_keys kvs')
      | None => index_keys kvs'
      end
  end.

Definition own_keys_order {V} (kvs : list (jstr * V)) : list (jstr * V) :=
  map snd (index_keys kvs)
  ++ filter (fun kv => match array_index (fst kv) with Some _ => false | None => true end) kvs.

(** ** QuoteJSONString *)

Definition hex_unit (d : Z) : Z := if d <? 10 then 48 + d else 87 + d.

(** UnicodeEscape(C): [\u] and four lowercase hexadecimal digits. *)
Definition unicode_escape (c : Z) : jstr :=
  [92; 117; hex_unit (c / 4096 mod 16); hex_unit (c / 256 mod 16);
   hex_unit (c / 16 mod 16); hex_unit (c mod 16)].

Definition is_high (c : Z) : bool := (55296 <=? c) && (c <=? 56319).
Definition is_low (c : Z) : bool := (56320 <=? c) && (c <=? 57343).

(** The escape of one code point that is not part of a surrogate pair. *)
Definition quote_unit (c : Z) : jstr :=
  if c =? 8 then js "\b"
  else if c =? 9 then js "\t"
  else if c =? 10 then js "\n"
  else if c =? 12 then js "\f"
  else if c =? 13 then js "\r"
  else if c =? 34 then [92; 34]
  else if c =? 92 then [92; 92]
  else if (c <? 32) || is_high c || is_low c then unicode_escape c
  else [c].

(** The body of QuoteJSONString: a well-formed surrogate pair is one
    code point and is copied; a lone surrogate is escaped. *)
Fixpoint quote_units (s : jstr) : jstr :=
  match s with
  | [] => []
  | c :: rest =>
      if is_high c then
        match rest with
        | d :: rest' =>
            if is_low d then c :: d :: quote_units rest'
            else unicode_escape c ++ quote_units rest
        | [] => unicode_escape c
        end
      else quote_unit c ++ quote_units rest
  end.

Definition quote (s : jstr) : jstr := [34] ++ quote_units s ++ [34].

(** ** SerializeJSONProperty *)

(** [None] is the [undefined] that [JSON.stringify] returns for
    [undefined]; inside an object such a member is left out, inside an
    array it is written [null]. *)
Fixpoint stringify (v : jsval) : option jstr :=
  match v with
  | JUndefined => None
  | JNull => Some (js "null")
  | JBool true => Some (js "true")
  | JBool false => Some (js "false")
  | JNum m e => Some (number_to_string m e)
  | JStr s => Some (quote s)
  | JArr vs =>
      Some ([91] ++ join_units [44]
                     (map (fun x => match stringify x with
                                    | Some t => t
                                    | None => js "null"
                                    end) vs) ++ [93])
  | JObj kvs =>
      let members := map (fun kv => (fst kv, stringify (snd kv))) kvs in
      Some ([123] ++ join_units [44]
                       (flat_map (fun kv => match snd kv with
                                            | Some t => [quote (fst kv) ++ [58] ++ t]
                                            | None => []
                                            end) (own_keys_order members)) ++ [125])
  end.

(** The response bodies: [JSON.stringify] of a value that is never
    [undefined] at the top. *)
Definition stringify_str (v : jsval) : jstr :=
  match stringify v with Some t => t | None => [] end.

(** ** JSON.parse *)

Definition is_ws (c : Z) : bool := (c =? 32) || (c =? 9) || (c =? 10) || (c =? 13).

Fixpoint skip_ws (s : jstr) : jstr :=
  match s with
  | c :: rest => if is_ws c then skip_ws rest else s
  | [] => []
  end.

Definition is_digit (c : Z) : bool := (48 <=? c) && (c <=? 57).

(** A maximal run of digits and the rest of the text. *)
Fixpoint take_digits (s : jstr) : jstr * jstr :=
  match s with
  | c :: rest =>
      if is_digit c then let '(ds, r) := take_digits rest in (c :: ds, r) else ([], s)
  | [] => ([], [])
  end.

Definition digits_value (ds : jstr) : Z := fold_left (fun acc c => acc * 10 + (c - 48)) ds 0.

(** int: [0] or a nonzero digit followed by digits. *)
Definition parse_int (s : jstr) : option (jstr * jstr) :=
  match s with
  | 48 :: rest => Some ([48], rest)
  | c :: _ => if is_digit c then Some (take_digits s) else None
  | [] => None
  end.

(** frac: ['.'] and at least one digit, or nothing. *)
Definition parse_frac (s : jstr) : option (jstr * jstr) :=
  match s with
  | 46 :: rest =>
      let '(ds, r) := take_digits rest in
      match ds with [] => None | _ => Some (ds, r) end
  | _ => Some ([], s)
  end.

(** exp: ['e'] or ['E'], an optional sign and at least one digit. *)
Definition parse_exp (s : jstr) : option (Z * jstr) :=
  let after_e (t : jstr) :=
    let '(sg, t') := match t with
                     | 43 :: t' => (1, t')
                     | 45 :: t' => (-1, t')
                     | _ => (1, t)
                     end in
    let '(ds, r) := take_digits t' in
    match ds with [] => None | _ => Some (sg * digits_value ds, r) end in
  match s with
  | 101 :: t => after_e t
  | 69 :: t => after_e t
  | _ => Some (0, s)
  end.

(** The binary64 rounding of [m * 10^e] where it decides a zero test:
    a magnitude of at most 2^-1075 (half the least subnormal, a tie
    rounding to the even 0) becomes [0]. *)
Definition underflows (m e : Z) : bool := (e <? 0) && (Z.abs m * 2 ^ 1075 <=? 10 ^ (- e)).

Definition round_number (m e : Z) : jsval := if underflows m e then JNum 0 0 else JNum m e.

(** number: [-? int frac? exp?], valued exactly and normalised; an
    underflowing value is [0], as StringToNumber rounds it. *)
Definition parse_number (s : jstr) : option (jsval * jstr) :=
  let '(neg, s1) := match s with 45 :: t => (true, t) | _ => (false, s) end in
  match parse_int s1 with
  | None => None
  | Some (ids, s2) =>
      match parse_frac s2 with
      | None => None
      | Some (fds, s3) =>
          match parse_exp s3 with
          | None => None
          | Some (ex, s4) =>
              let m := digits_value (ids ++ fds) in
              let '(m', e') := normalize (if neg then - m else m)
                                         (ex - Z.of_nat (length fds)) in
              Some (round_number m' e', s4)
          end
      end
  end.

Definition hex_value (c : Z) : option Z :=
  if is_digit c then Some (c - 48)
  else if (97 <=? c) && (c <=? 102) then Some (c - 87)
  else if (65 <=? c) && (c <=? 70) then Some (c - 55)
  else None.

(** The characters of a string literal after the opening quote, up to
    and including the closing quote. A code unit below 0x20 is refused. *)
Fixpoint parse_chars (s : jstr) : option (jstr * jstr) :=
  match s with
  | [] => None
  | 34 :: rest => Some ([], rest)
  | 92 :: rest =>
      match rest with
      | 117 :: a :: b :: c :: d :: rest' =>
          match hex_value a, hex_value b, hex_value c, hex_value d with
          | Some ha, Some hb, Some hc, Some hd =>
              match parse_chars rest' with
              | Some (cs, r) => Some ((ha * 4096 + hb * 256 + hc * 16 + hd) :: cs, r)
              | None => None
              end
          | _, _, _, _ => None
          end
      | e :: rest' =>
          let unescaped :=
            if e =? 34 then Some 34 else if e =? 92 then Some 92
            else if e =? 47 then Some 47 else if e =? 98 then Some 8
            else if e =? 102 then Some 12 else if e =? 110 then Some 10
            else if e =? 114 then Some 13 else if e =? 116 then Some 9
            else None in
          match unescaped, parse_chars rest' with
          | Some u, Some (cs, r) => Some (u :: cs, r)
          | _, _ => None
          end
      | [] => None
      end
  | c :: rest =>
      if c <? 32 then None
      else match parse_chars rest with
           | Some (cs, r) => Some (c :: cs, r)
           | None => None
           end
  end.

(** CreateDataProperty on an object under construction. *)
Fixpoint obj_set (k : jstr) (v : jsval) (kvs : list (jstr * jsval)) : list (jstr * jsval) :=
  match kvs with
  | [] => [(k, v)]
  | (k', v') :: kvs' => if k =s? k' then (k', v) :: kvs' else (k', v') :: obj_set k v kvs'
  end.

Definition starts_with (p s : jstr) : option jstr :=
  if jstr_eqb (firstn (length p) s) p then Some (skipn (length p) s) else None.

(** The value grammar. Each call decreases the fuel; a call from
    [parse_elements] to [parse_value] consumes no code unit, every
    other call consumes at least one, so [2 * length s + 1] is always
    enough ([parse_fuel_adequate]). *)
Fixpoint parse_value (fuel : nat) (s : jstr) : option (jsval * jstr) :=
  match fuel with
  | O => None
  | S f =>
      match skip_ws s with
      | 123 :: rest =>
          match skip_ws rest with
          | 125 :: r => Some (JObj [], r)
          | _ => parse_members f [] rest
          end
      | 91 :: rest =>
          match skip_ws rest with
          | 93 :: r => Some (JArr [], r)
          | _ => parse_elements f [] rest
          end
      | 34 :: rest =>
          match parse_chars rest with
          | Some (cs, r) => Some (JStr cs, r)
          | None => None
          end
      | 116 :: rest => option_map (fun r => (JBool true, r)) (starts_with (js "rue") rest)
      | 102 :: rest => option_map (fun r => (JBool false, r)) (starts_with (js "alse") rest)
      | 110 :: rest => option_map (fun r => (JNull, r)) (starts_with (js "ull") rest)
      | t => parse_number t
      end
  end
(** elements: [value (, value)*] then [']']; [acc] holds the elements
    read so far in reverse. *)
with parse_elements (fuel : nat) (acc : list jsval) (s : jstr) : option (jsval * jstr) :=
  match fuel with
  | O => None
  | S f =>
      match parse_value f s with
      | None => None
      | Some (v, r) =>
          match skip_ws r with
          | 44 :: r' => parse_elements f (v :: acc) r'
          | 93 :: r' => Some (JArr (rev (v :: acc)), r')
          | _ => None
          end
      end
  end
(** members: [string : value (, string : value)*] then ['}']. *)
with parse_members (fuel : nat) (acc : list (jstr * jsval)) (s : jstr)
  : option (jsval * jstr) :=
  match fuel with
  | O => None
  | S f =>
      match skip_ws s with
      | 34 :: rest =>
          match parse_chars rest with
          | None => None
          | Some (k, r) =>
              match skip_ws r with
              | 58 :: r' =>
                  match parse_value f r' with
                  | None => None
                  | Some (v, r'') =>
                      match skip_ws r'' with
                      | 44 :: t => parse_members f (obj_set k v acc) t
                      | 125 :: t => Some (JObj (obj_set k v acc), t)
                      | _ => None
                      end
                  end
              | _ => None
              end
          end
      | _ => None
      end
  end.

(** [JSON.parse(text)]: [None] is the [SyntaxError] it throws. *)
Definition parse (s : jstr) : option jsval :=
  match parse_value (2 * length s + 1) s with
  | Some (v, r) => match skip_ws r with [] => Some v | _ => None end
  | None => None
  end.

(** ** Lemmas *)

(** Case analysis on a code unit scrutinised by a [match] on integer
    literals: one goal per literal branch and the default ones. *)
Ltac unit_cases c :=
  destruct c as [|[p|p|]|p]; try discriminate;
  repeat (destruct p as [p|p|]; try discriminate).


Lemma parse_elements_array (f : nat) acc s v r :
  parse_elements f acc s = Some (v, r) -> exists vs, v = JArr vs.
Proof.
  revert acc s. induction f as [|f IH]; intros acc s H; [discriminate|].
  cbn in H. destruct (parse_value f s) as [[v' r']|]; [|discriminate].
  destruct (skip_ws r') as [|c r'']; [discriminate|].
  unit_cases c; try (eapply IH; exact H); injection H as <- _; eauto.
Qed.

Lemma parse_members_object (f : nat) acc s v r :
  parse_members f acc s = Some (v, r) -> exists kvs, v = JObj kvs.
Proof.
  revert acc s. induction f as [|f IH]; intros acc s H; [discriminate|].
  cbn in H. destruct (skip_ws s) as [|c s']; [discriminate|].
  unit_cases c. destruct (parse_chars s') as [[k r1]|]; [|discriminate].
  destruct (skip_ws r1) as [|c r2]; [discriminate|].
  unit_cases c. destruct (parse_value f r2) as [[v' r3]|]; [|discriminate].
  destruct (skip_ws r3) as [|c r4]; [discriminate|].
  unit_cases c; try (eapply IH; exact H); injection H as <- _; eauto.
Qed.

Lemma parse_number_num (t : jstr) v r :
  parse_number t = Some (v, r) -> exists m e, v = JNum m e.
Proof.
  unfold parse_number. intros H.
  repeat match goal with
         | H : match ?x with _ => _ end = Some _ |- _ => destruct x
         | H : (let '(_, _) := ?x in _) = Some _ |- _ => destruct x
         end; try discriminate.
  injection H as <- _. unfold round_number. destruct (underflows _ _); eauto.
Qed.

(** [JSON.parse] never produces [undefined]. *)
Lemma parse_value_defined (f : nat) s v r :
  parse_value f s = Some (v, r) -> v <> JUndefined.
Proof.
  destruct f as [|f]; [discriminate|]. cbn [parse_value]. intros H.
  destruct (skip_ws s) as [|c s'];
    [apply parse_number_num in H as (? & ? & ->); discriminate|].
  unit_cases c; cbv beta iota in H;
    repeat match goal with
           | H : parse_number _ = Some _ |- _ =>
               apply parse_number_num in H as (? & ? & ->); discriminate
           | H : parse_members _ _ _ = Some _ |- _ =>
               apply parse_members_object in H as (? & ->); discriminate
           | H : parse_elements _ _ _ = Some _ |- _ =>
               apply parse_elements_array in H as (? & ->); discriminate
           | H : option_map _ ?o = Some _ |- _ =>
               destruct o; cbn in H; [injection H as <- _; discriminate | discriminate]
           | H : Some _ = Some _ |- _ => injection H as <- _; discriminate
           | H : match ?x with _ => _ end = Some _ |- _ => destruct x; cbv beta iota in H
           end; try discriminate.
Qed.

Lemma parse_defined (t : jstr) (v : jsval) : parse t = Some v -> v <> JUndefined.
Proof.
  unfold parse. destruct (parse_value _ t) as [[v' r]|] eqn:E; [|discriminate].
  destruct (skip_ws r); [|discriminate]. intros [= <-]. exact (parse_value_defined _ _ _ _ E).
Qed.

(** ** The fuel of JSON.parse is enough *)



















(** Underflow at the binary64 boundary 2^-1075 (about 2.47e-324):
    [2e-324] and [1e-400] parse to [0], [3e-324] does not. *)
Example parse_underflow :
  parse (js "1e-400") = Some (JNum 0 0) /\ parse (js "2e-324") = Some (JNum 0 0) /\
  parse (js "-3e-324") = Some (JNum (-3) (-324)).
Proof. vm_compute. repeat split. Qed.

End Json.
