(* ===== verification/JsDate.v ===== *)
(** * JsDate: the ECMAScript time model used by get-availability.js

    Time values are integers of milliseconds since the epoch, [None]
    standing for [NaN] (an invalid date). The definitions are those of
    ECMA-262 21.4.1 (Day, DayFromYear, YearFromTime, MonthFromTime,
    DateFromTime, MakeDay, MakeDate, TimeClip, LocalTime, UTC), with
    [YearFromTime] computed from a linear estimate and one correction;
    [year_from_day_spec] proves that it is the year the standard
    specifies. The local time zone is a fixed offset [tz] in
    milliseconds. On top of them: [toISOString], [getFullYear],
    [getMonth], the local-time [Date] constructor, and the two month
    tokens of get-availability.js (lines 41-43). *)

From Stdlib Require Import String Ascii.
From Stdlib Require Import List ZArith Bool Lia.
From S2P Require Import Prelude JsValue.
Import ListNotations.
Import JsValue.
Open Scope Z_scope.

Module JsDate.

Definition msPerDay : Z := 86400000.

(** ** Days and years (ECMA-262 21.4.1.3 - 21.4.1.4) *)

Definition Day (t : Z) : Z := t / msPerDay.
Definition TimeWithinDay (t : Z) : Z := t mod msPerDay.

Definition DaysInYear (y : Z) : Z :=
  if negb (y mod 4 =? 0) then 365
  else if negb (y mod 100 =? 0) then 366
  else if negb (y mod 400 =? 0) then 365
  else 366.

Definition DayFromYear (y : Z) : Z :=
  365 * (y - 1970) + (y - 1969) / 4 - (y - 1901) / 100 + (y - 1601) / 400.

(** The year of a day number: the largest [y] with
    [DayFromYear y <= d]. The estimate [1970 + 400 d / 146097] is off by
    at most one year either way. *)
Definition year_from_day (d : Z) : Z :=
  let y0 := 1970 + (400 * d) / 146097 in
  if d <? DayFromYear y0 then y0 - 1
  else if d <? DayFromYear (y0 + 1) then y0
  else y0 + 1.

Definition YearFromTime (t : Z) : Z := year_from_day (Day t).

Definition InLeapYear (t : Z) : Z := if DaysInYear (YearFromTime t) =? 366 then 1 else 0.

Definition DayWithinYear (t : Z) : Z := Day t - DayFromYear (YearFromTime t).

(** ** Months and dates (ECMA-262 21.4.1.5 - 21.4.1.6) *)

(** The first day within the year of month [m] (0-based). *)
Definition month_start (m leap : Z) : Z :=
  if m =? 0 then 0 else if m =? 1 then 31 else if m =? 2 then 59 + leap
  else if m =? 3 then 90 + leap else if m =? 4 then 120 + leap
  else if m =? 5 then 151 + leap else if m =? 6 then 181 + leap
  else if m =? 7 then 212 + leap else if m =? 8 then 243 + leap
  else if m =? 9 then 273 + leap else if m =? 10 then 304 + leap
  else 334 + leap.

(** The length of month [m] (0-based) as the table implies it. *)
Definition days_in_month (m leap : Z) : Z :=
  if m =? 1 then 28 + leap
  else if (m =? 3) || (m =? 5) || (m =? 8) || (m =? 10) then 30
  else 31.

(** The table of MonthFromTime, on the day within the year. *)
Definition month_of_day (dwy leap : Z) : Z :=
  if dwy <? 31 then 0 else if dwy <? 59 + leap then 1
  else if dwy <? 90 + leap then 2 else if dwy <? 120 + leap then 3
  else if dwy <? 151 + leap then 4 else if dwy <? 181 + leap then 5
  else if dwy <? 212 + leap then 6 else if dwy <? 243 + leap then 7
  else if dwy <? 273 + leap then 8 else if dwy <? 304 + leap then 9
  else if dwy <? 334 + leap then 10 else 11.

Definition MonthFromTime (t : Z) : Z := month_of_day (DayWithinYear t) (InLeapYear t).

Definition DateFromTime (t : Z) : Z :=
  DayWithinYear t - month_start (MonthFromTime t) (InLeapYear t) + 1.

Definition HourFromTime (t : Z) : Z := (t / 3600000) mod 24.
Definition MinFromTime (t : Z) : Z := (t / 60000) mod 60.
Definition SecFromTime (t : Z) : Z := (t / 1000) mod 60.
Definition msFromTime (t : Z) : Z := t mod 1000.

(** ** Building time values (ECMA-262 21.4.1.28 - 21.4.1.31) *)

Definition leap_of_year (y : Z) : Z := if DaysInYear y =? 366 then 1 else 0.

(** MakeDay(year, month, date): the day of the first of month
    [month mod 12] of year [year + month / 12], plus [date - 1]. *)
Definition MakeDay (year month date : Z) : Z :=
  let ym := year + month / 12 in
  let mn := month mod 12 in
  DayFromYear ym + month_start mn (leap_of_year ym) + date - 1.

Definition MakeDate (day time : Z) : Z := day * msPerDay + time.

(** TimeClip: beyond 8.64e15 ms from the epoch a date is invalid. *)
Definition TimeClip (t : Z) : option Z :=
  if Z.abs t <=? 8640000000000000 then Some t else None.

Definition LocalTime (tz t : Z) : Z := t + tz.
Definition UTC (tz t : Z) : Z := t - tz.

(** [new Date(year, month, date)] (21.4.2.1, two or more arguments):
    a year from 0 to 99 means 1900 + year; the arguments are local time. *)
Definition new_date_local (tz year month date : Z) : option Z :=
  let yr := if (0 <=? year) && (year <=? 99) then 1900 + year else year in
  TimeClip (UTC tz (MakeDate (MakeDay yr month date) 0)).

(** [getFullYear] and [getMonth]: fields of the local time. *)
Definition getFullYear (tz t : Z) : Z := YearFromTime (LocalTime tz t).
Definition getMonth (tz t : Z) : Z := MonthFromTime (LocalTime tz t).

(** ** toISOString (21.4.4.36) *)

(** [n] in decimal, left-padded with zeros to [w] digits. *)
Definition pad (w : nat) (n : Z) : jstr :=
  let ds := digits n in repeat 48 (w - length ds)%nat ++ ds.

(** The year of the Date Time String Format: four digits from 0 to
    9999, otherwise a sign and six digits. *)
Definition iso_year (y : Z) : jstr :=
  if (0 <=? y) && (y <=? 9999) then pad 4 y
  else (if y <? 0 then js "-" else js "+") ++ pad 6 (Z.abs y).

Definition iso_string (t : Z) : jstr :=
  iso_year (YearFromTime t) ++ js "-" ++ pad 2 (MonthFromTime t + 1) ++ js "-"
  ++ pad 2 (DateFromTime t) ++ js "T" ++ pad 2 (HourFromTime t) ++ js ":"
  ++ pad 2 (MinFromTime t) ++ js ":" ++ pad 2 (SecFromTime t) ++ js "."
  ++ pad 3 (msFromTime t) ++ js "Z".

(** [d.toISOString()]: [None] is the [RangeError] thrown on an invalid
    date. *)
Definition toISOString (d : option Z) : option jstr := option_map iso_string d.

(** ** The month tokens of get-availability.js *)

(** [now.toISOString().slice(0, 7)] (line 42). *)
Definition currentMonth (now : Z) : option jstr :=
  option_map (firstn 7) (toISOString (Some now)).

(** [new Date(now.getFullYear(), now.getMonth() + 1, 1)
    .toISOString().slice(0, 7)] (line 43). *)
Definition nextMonth (tz now : Z) : option jstr :=
  option_map (firstn 7)
    (toISOString (new_date_local tz (getFullYear tz now) (getMonth tz now + 1) 1)).

(** [new Date(Date.now() + 35 * 24 * 60 * 60 * 1000).toISOString()]
    (line 34). *)
Definition placeholder_time (now : Z) : option jstr :=
  toISOString (TimeClip (now + 35 * 24 * 60 * 60 * 1000)).

(** The token ["YYYY-MM"] of a year and a 1-based month. *)
Definition month_token (y m : Z) : jstr := pad 4 y ++ js "-" ++ pad 2 m.

(** 2025-12-01T00:00:00Z. *)
Definition dec_first_2025 : Z := 1764547200000.

(** ** Padding *)

Lemma pad_length (w : nat) (n : Z) :
  0 <= n < 10 ^ Z.of_nat w -> (1 <= w)%nat -> length (pad w n) = w.
Proof.
  intros Hn Hw. unfold pad. rewrite length_app, repeat_length.
  pose proof (digits_length n (Z.of_nat w) Hn ltac:(lia)). lia.
Qed.

(** ** Years *)

Lemma DaysInYear_leap (y : Z) : DaysInYear y = 365 + leap_of_year y.
Proof. unfold leap_of_year. destruct (Z.eqb_spec (DaysInYear y) 366); unfold DaysInYear in *; case_tests; lia. Qed.

Lemma leap_of_year_range (y : Z) : 0 <= leap_of_year y <= 1.
Proof. unfold leap_of_year. case_tests; lia. Qed.

(** DayFromYear agrees with DaysInYear: year [y] has [DaysInYear y] days. *)
Lemma DayFromYear_succ (y : Z) : DayFromYear (y + 1) = DayFromYear y + DaysInYear y.
Proof.
  unfold DayFromYear, DaysInYear.
  destruct (Z.eqb_spec (y mod 4) 0), (Z.eqb_spec (y mod 100) 0), (Z.eqb_spec (y mod 400) 0);
    cbn [negb]; zdiv_bounds; lia.
Qed.

Lemma DayFromYear_mono (y1 y2 : Z) : y1 <= y2 -> DayFromYear y1 <= DayFromYear y2.
Proof. intros H. unfold DayFromYear. zdiv_bounds. lia. Qed.

Lemma year_estimate (d : Z) :
  DayFromYear (1970 + 400 * d / 146097 - 1) <= d < DayFromYear (1970 + 400 * d / 146097 + 2).
Proof. unfold DayFromYear. zdiv_bounds. lia. Qed.

(** [year_from_day d] is the year of ECMA-262 YearFromTime: the largest
    [y] such that [DayFromYear y <= d]. *)
Lemma year_from_day_spec (d : Z) :
  DayFromYear (year_from_day d) <= d < DayFromYear (year_from_day d + 1).
Proof.
  pose proof (year_estimate d) as [Hlo Hhi]. unfold year_from_day.
  set (y0 := 1970 + 400 * d / 146097) in *.
  zbool_cases; replace (y0 - 1 + 1) with y0 by lia;
    replace (y0 + 1 + 1) with (y0 + 2) by lia; lia.
Qed.

Lemma year_from_day_unique (y d : Z) :
  DayFromYear y <= d < DayFromYear (y + 1) -> year_from_day d = y.
Proof.
  intros H. pose proof (year_from_day_spec d) as Hs.
  destruct (Z.lt_trichotomy (year_from_day d) y) as [Hlt|[Heq|Hgt]]; [|exact Heq|].
  - pose proof (DayFromYear_mono (year_from_day d + 1) y ltac:(lia)). lia.
  - pose proof (DayFromYear_mono (y + 1) (year_from_day d) ltac:(lia)). lia.
Qed.

(** ** Months *)

Lemma month_start_succ (mn leap : Z) :
  0 <= mn <= 10 -> month_start (mn + 1) leap = month_start mn leap + days_in_month mn leap.
Proof. intros H. enum_range mn; unfold month_start, days_in_month; zbool_cases; lia. Qed.

Lemma month_end_bound (mn leap : Z) :
  0 <= mn <= 11 -> 0 <= leap -> month_start mn leap + days_in_month mn leap <= 365 + leap.
Proof. intros H Hl. enum_range mn; unfold month_start, days_in_month; zbool_cases; lia. Qed.

Lemma days_in_month_pos (mn leap : Z) : 0 <= leap -> 28 <= days_in_month mn leap.
Proof. intros H. unfold days_in_month. case_tests; lia. Qed.

(** The MonthFromTime table inverts [month_start]: every day of month
    [mn] is classified as month [mn]. *)
Lemma month_of_day_start (mn leap k : Z) :
  0 <= mn <= 11 -> 0 <= leap <= 1 -> 0 <= k < days_in_month mn leap ->
  month_of_day (month_start mn leap + k) leap = mn.
Proof.
  intros Hm Hl Hk.
  enum_range mn; unfold month_of_day, month_start, days_in_month in *;
    revert Hk; zbool_cases; intros; lia.
Qed.

Lemma month_of_day_range (dwy leap : Z) : 0 <= month_of_day dwy leap <= 11.
Proof. unfold month_of_day. case_tests; lia. Qed.

(** ** Fields of a time value *)

Lemma InLeapYear_of_year (t : Z) : InLeapYear t = leap_of_year (YearFromTime t).
Proof. reflexivity. Qed.

(** A day [k] days into month [mn] of year [y] has year [y] and month
    [mn] (the fields YearFromTime and MonthFromTime give back). *)
Lemma fields_of_day (t y mn k : Z) :
  0 <= mn <= 11 -> 0 <= k < days_in_month mn (leap_of_year y) ->
  Day t = DayFromYear y + month_start mn (leap_of_year y) + k ->
  YearFromTime t = y /\ MonthFromTime t = mn.
Proof.
  intros Hm Hk Hd.
  pose proof (leap_of_year_range y). pose proof (month_end_bound mn (leap_of_year y) Hm ltac:(apply leap_of_year_range)).
  pose proof (DayFromYear_succ y) as Hs. rewrite DaysInYear_leap in Hs.
  assert (Hy : YearFromTime t = y).
  { unfold YearFromTime. apply year_from_day_unique. pose proof (month_start_succ 0 (leap_of_year y)). 
    assert (0 <= month_start mn (leap_of_year y))
      by (enum_range mn; unfold month_start; zbool_cases; lia).
    lia. }
  split; [exact Hy|].
  unfold MonthFromTime, DayWithinYear. rewrite InLeapYear_of_year, Hy, Hd.
  replace (DayFromYear y + month_start mn (leap_of_year y) + k - DayFromYear y)
    with (month_start mn (leap_of_year y) + k) by lia.
  apply month_of_day_start; lia.
Qed.

Lemma Day_MakeDate (d : Z) : Day (MakeDate d 0) = d.
Proof. unfold Day, MakeDate, msPerDay. rewrite Z.add_0_r. apply Z.div_mul. lia. Qed.

(** MakeDay at the first of the month after month [mo] of year [y]. *)
Lemma MakeDay_next (y mo : Z) :
  0 <= mo <= 11 ->
  MakeDay y (mo + 1) 1 =
  DayFromYear y + month_start mo (leap_of_year y) + days_in_month mo (leap_of_year y).
Proof.
  intros Hm. unfold MakeDay.
  destruct (Z.eq_dec mo 11) as [->|Hne].
  - pose proof (DayFromYear_succ y) as Hs. rewrite DaysInYear_leap in Hs.
    replace ((11 + 1) / 12) with 1 by reflexivity.
    replace ((11 + 1) mod 12) with 0 by reflexivity.
    unfold month_start, days_in_month. zbool_cases; lia.
  - rewrite Z.div_small by lia. rewrite Z.mod_small by lia. rewrite Z.add_0_r.
    rewrite month_start_succ by lia. lia.
Qed.

(** The first day of the month after month [mo] of year [y]. *)
Lemma fields_first_of_next (t y mo : Z) :
  0 <= mo <= 11 -> Day t = MakeDay y (mo + 1) 1 ->
  (YearFromTime t, MonthFromTime t) = if mo =? 11 then (y + 1, 0) else (y, mo + 1).
Proof.
  intros Hm Hd. rewrite MakeDay_next in Hd by exact Hm.
  pose proof (leap_of_year_range y). pose proof (leap_of_year_range (y + 1)).
  destruct (Z.eqb_spec mo 11) as [->|Hne].
  - pose proof (DayFromYear_succ y) as Hs. rewrite DaysInYear_leap in Hs.
    destruct (fields_of_day t (y + 1) 0 0) as [-> ->];
      [lia | pose proof (days_in_month_pos 0 (leap_of_year (y + 1))); lia
      | change (month_start 11 (leap_of_year y)) with (334 + leap_of_year y) in Hd;
        change (days_in_month 11 (leap_of_year y)) with 31 in Hd;
        change (month_start 0 (leap_of_year (y + 1))) with 0; lia
      | reflexivity].
  - destruct (fields_of_day t y (mo + 1) 0) as [-> ->];
      [lia | pose proof (days_in_month_pos (mo + 1) (leap_of_year y)); lia
      | rewrite month_start_succ by lia; lia | reflexivity].
Qed.

(** The day before: the last day of month [mo] of year [y]. *)
Lemma fields_last_of_month (t y mo : Z) :
  0 <= mo <= 11 -> Day t = MakeDay y (mo + 1) 1 - 1 ->
  YearFromTime t = y /\ MonthFromTime t = mo.
Proof.
  intros Hm Hd. rewrite MakeDay_next in Hd by exact Hm.
  pose proof (leap_of_year_range y). pose proof (days_in_month_pos mo (leap_of_year y)).
  apply (fields_of_day t y mo (days_in_month mo (leap_of_year y) - 1)); lia.
Qed.

Lemma MonthFromTime_range (t : Z) : 0 <= MonthFromTime t <= 11.
Proof. apply month_of_day_range. Qed.

(** A date of a year from 100 to 9998, shifted by at most a day, is
    within the range of TimeClip. *)
Lemma TimeClip_next_month (y mo tz : Z) :
  100 <= y <= 9998 -> 0 <= mo <= 11 -> Z.abs tz <= msPerDay ->
  TimeClip (UTC tz (MakeDate (MakeDay y (mo + 1) 1) 0)) =
  Some (MakeDate (MakeDay y (mo + 1) 1) 0 - tz).
Proof.
  intros Hy Hm Htz. unfold TimeClip, UTC. rewrite MakeDay_next by exact Hm.
  pose proof (DayFromYear_mono 100 y ltac:(lia)). pose proof (DayFromYear_mono y 9999 ltac:(lia)).
  assert (DayFromYear 100 = -683003) by reflexivity.
  assert (DayFromYear 9999 = 2932532) by reflexivity.
  pose proof (leap_of_year_range y).
  pose proof (month_end_bound mo (leap_of_year y) Hm ltac:(lia)).
  pose proof (days_in_month_pos mo (leap_of_year y) ltac:(lia)).
  assert (0 <= month_start mo (leap_of_year y))
    by (enum_range mo; unfold month_start; zbool_cases; lia).
  unfold MakeDate, msPerDay in *. zbool_cases; [reflexivity | lia].
Qed.

(** The ISO string of a date of year 0 to 9999 starts with its
    ["YYYY-MM"] token. *)
Lemma iso_string_prefix (t : Z) :
  0 <= YearFromTime t <= 9999 ->
  firstn 7 (iso_string t) = month_token (YearFromTime t) (MonthFromTime t + 1).
Proof.
  intros Hy. pose proof (MonthFromTime_range t).
  assert (Hlen : length (month_token (YearFromTime t) (MonthFromTime t + 1)) = 7%nat).
  { unfold month_token. rewrite !length_app.
    rewrite (pad_length 4 (YearFromTime t)), (pad_length 2 (MonthFromTime t + 1)); cbn; lia. }
  unfold iso_string, iso_year.
  destruct ((0 <=? YearFromTime t) && (YearFromTime t <=? 9999)) eqn:E;
    [| apply andb_false_iff in E; destruct E as [E|E]; apply Z.leb_gt in E; lia].
  rewrite <- Hlen. unfold month_token. apply firstn_app3.
Qed.

Lemma Day_shift (D tz : Z) :
  0 < tz <= msPerDay -> Day (MakeDate D 0 - tz) = D - 1.
Proof. intros H. unfold Day, MakeDate, msPerDay in *. zdiv_bounds. lia. Qed.

Lemma Day_shift_west (D tz : Z) :
  - msPerDay < tz <= 0 -> Day (MakeDate D 0 - tz) = D.
Proof. intros H. unfold Day, MakeDate, msPerDay in *. zdiv_bounds. lia. Qed.

(** [currentMonth] is the token of the UTC year and month of [now]. *)
Lemma currentMonth_token (now : Z) :
  0 <= YearFromTime now <= 9999 ->
  currentMonth now = Some (month_token (YearFromTime now) (MonthFromTime now + 1)).
Proof. intros H. unfold currentMonth. cbn. f_equal. apply iso_string_prefix. exact H. Qed.

(** [nextMonth] builds the first of the month after the local month,
    at local midnight: unfolded for a year from 100 to 9998. *)
Lemma nextMonth_unfold (tz now : Z) :
  100 <= getFullYear tz now <= 9998 -> Z.abs tz <= msPerDay ->
  nextMonth tz now =
  Some (firstn 7 (iso_string
    (MakeDate (MakeDay (getFullYear tz now) (getMonth tz now + 1) 1) 0 - tz))).
Proof.
  intros Hy Htz. unfold nextMonth, new_date_local.
  replace ((0 <=? getFullYear tz now) && (getFullYear tz now <=? 99)) with false
    by (symmetry; apply andb_false_iff; right; apply Z.leb_gt; lia).
  rewrite TimeClip_next_month; [reflexivity | lia | apply MonthFromTime_range | lia].
Qed.

(** C7: in UTC (the zone of a Netlify function), the two months queried
    are the current month and the one after it. *)
Theorem month_tokens_utc (now : Z) :
  100 <= YearFromTime now <= 9998 ->
  currentMonth now = Some (month_token (YearFromTime now) (MonthFromTime now + 1)) /\
  nextMonth 0 now =
  Some (if MonthFromTime now =? 11 then month_token (YearFromTime now + 1) 1
        else month_token (YearFromTime now) (MonthFromTime now + 2)).
Proof.
  intros Hy. split; [apply currentMonth_token; lia|].
  assert (Hg : getFullYear 0 now = YearFromTime now) by (unfold getFullYear, LocalTime; f_equal; lia).
  assert (Hm : getMonth 0 now = MonthFromTime now) by (unfold getMonth, LocalTime; f_equal; lia).
  rewrite nextMonth_unfold by (unfold msPerDay; lia). rewrite Hg, Hm, Z.sub_0_r.
  pose proof (MonthFromTime_range now).
  set (t := MakeDate (MakeDay (YearFromTime now) (MonthFromTime now + 1) 1) 0).
  pose proof (fields_first_of_next t (YearFromTime now) (MonthFromTime now) H
                (Day_MakeDate _)) as Hf.
  destruct (Z.eqb_spec (MonthFromTime now) 11); injection Hf as Hty Htm;
    rewrite iso_string_prefix, Hty, Htm by lia; do 2 f_equal; lia.
Qed.

(** C5: east of UTC ([tz > 0]), while the local and the UTC dates are
    in the same month, [nextMonth] is the current month again: the
    local midnight of the first of next month is still the last day of
    this month in UTC, and [toISOString] prints UTC. *)
Theorem nextMonth_east_repeats_current (tz now : Z) :
  0 < tz <= msPerDay ->
  getFullYear tz now = YearFromTime now -> getMonth tz now = MonthFromTime now ->
  100 <= YearFromTime now <= 9998 ->
  nextMonth tz now = currentMonth now.
Proof.
  intros Htz Hy Hm Hr. rewrite currentMonth_token by lia.
  rewrite nextMonth_unfold by lia. rewrite Hy, Hm.
  pose proof (MonthFromTime_range now).
  set (D := MakeDay (YearFromTime now) (MonthFromTime now + 1) 1).
  destruct (fields_last_of_month (MakeDate D 0 - tz) (YearFromTime now) (MonthFromTime now))
    as [Hty Htm]; [lia | apply Day_shift; lia |].
  rewrite iso_string_prefix; rewrite ?Hty, ?Htm; [reflexivity | lia].
Qed.

(** C17: west of UTC ([tz < 0]), while the local date is still in the
    month before the UTC one, [nextMonth] is again the UTC month: both
    queries ask for the same month. *)
Theorem nextMonth_west_repeats_current (tz now : Z) :
  - msPerDay < tz < 0 ->
  (YearFromTime now, MonthFromTime now) =
    (if getMonth tz now =? 11 then (getFullYear tz now + 1, 0)
     else (getFullYear tz now, getMonth tz now + 1)) ->
  100 <= getFullYear tz now <= 9998 ->
  nextMonth tz now = currentMonth now.
Proof.
  intros Htz Hym Hr. rewrite nextMonth_unfold by lia.
  pose proof (MonthFromTime_range (LocalTime tz now)) as Hmr. fold (getMonth tz now) in Hmr.
  set (D := MakeDay (getFullYear tz now) (getMonth tz now + 1) 1).
  pose proof (fields_first_of_next (MakeDate D 0 - tz) (getFullYear tz now) (getMonth tz now) Hmr
                ltac:(rewrite Day_shift_west by lia; reflexivity)) as Hf.
  rewrite <- Hym in Hf. injection Hf as Hty Htm.
  assert (0 <= YearFromTime now <= 9999) by (destruct (getMonth tz now =? 11); injection Hym; lia).
  rewrite currentMonth_token, iso_string_prefix, Hty, Htm by lia. reflexivity.
Qed.

(** ** Examples *)

Lemma month_tokens_utc_witness :
  currentMonth dec_first_2025 = Some (month_token 2025 12) /\
  nextMonth 0 dec_first_2025 = Some (month_token 2026 1).
Proof.
  destruct (month_tokens_utc dec_first_2025) as [H1 H2];
    [split; vm_compute; discriminate|].
  rewrite H1, H2. split; vm_compute; reflexivity.
Defined.

(** At 2025-12-01T00:00Z in UTC+1 both tokens are ["2025-12"]. *)
Lemma nextMonth_east_witness :
  nextMonth 3600000 dec_first_2025 = currentMonth dec_first_2025 /\
  currentMonth dec_first_2025 = Some (js "2025-12").
Proof.
  split; [|reflexivity].
  apply nextMonth_east_repeats_current;
    [split; vm_compute; first [reflexivity | discriminate] | reflexivity | reflexivity
    | split; vm_compute; discriminate].
Defined.

(** At 2025-12-01T00:00Z in UTC-5 (local time still November 30) both
    tokens are ["2025-12"]. *)
Lemma nextMonth_west_witness :
  nextMonth (-18000000) dec_first_2025 = currentMonth dec_first_2025 /\
  currentMonth dec_first_2025 = Some (js "2025-12").
Proof.
  split; [|reflexivity].
  apply nextMonth_west_repeats_current;
    [split; vm_compute; first [reflexivity | discriminate] | reflexivity
    | split; vm_compute; discriminate].
Defined.

End JsDate.
