(* ===== verification/Encoding.v ===== *)
(** * Encoding: [Buffer.from(s).toString("base64")]

    Both handlers build the Basic authorization header as
    [Buffer.from(`${userId}:${apiKey}`).toString("base64")]: the string
    is encoded in UTF-8 (Node's default; a lone surrogate becomes
    U+FFFD) and the bytes in standard Base64 with [=] padding
    (RFC 4648, section 4). *)

From Stdlib Require Import String Ascii.
From Stdlib Require Import List ZArith Bool Lia.
From S2P Require Import Prelude.
Import ListNotations.
Open Scope Z_scope.

Module Encoding.

(** The UTF-8 bytes of one code point. *)
Definition utf8_of_code_point (c : Z) : list Z :=
  if c <? 128 then [c]
  else if c <? 2048 then [192 + c / 64; 128 + c mod 64]
  else if c <? 65536 then [224 + c / 4096; 128 + (c / 64) mod 64; 128 + c mod 64]
  else [240 + c / 262144; 128 + (c / 4096) mod 64; 128 + (c / 64) mod 64; 128 + c mod 64].

Definition is_high_surrogate (c : Z) : bool := (55296 <=? c) && (c <=? 56319).
Definition is_low_surrogate (c : Z) : bool := (56320 <=? c) && (c <=? 57343).

(** UTF-16 code units to UTF-8 bytes: a surrogate pair is one code
    point; a lone surrogate is replaced by U+FFFD. *)
Fixpoint utf8_encode (s : jstr) : list Z :=
  match s with
  | [] => []
  | c :: rest =>
      if is_high_surrogate c then
        match rest with
        | d :: rest' =>
            if is_low_surrogate d then
              utf8_of_code_point (65536 + (c - 55296) * 1024 + (d - 56320)) ++ utf8_encode rest'
            else utf8_of_code_point 65533 ++ utf8_encode rest
        | [] => utf8_of_code_point 65533
        end
      else if is_low_surrogate c then utf8_of_code_point 65533 ++ utf8_encode rest
      else utf8_of_code_point c ++ utf8_encode rest
  end.

(** The Base64 alphabet: [A-Z], [a-z], [0-9], [+], [/]. *)
Definition b64_char (i : Z) : Z :=
  if i <? 26 then 65 + i
  else if i <? 52 then 71 + i
  else if i <? 62 then i - 4
  else if i =? 62 then 43
  else 47.

(** Groups of three bytes become four characters; a last group of one
    or two bytes is padded with [=]. *)
Fixpoint base64_encode (bs : list Z) : jstr :=
  match bs with
  | a :: b :: c :: rest =>
      [b64_char (a / 4); b64_char ((a mod 4) * 16 + b / 16);
       b64_char ((b mod 16) * 4 + c / 64); b64_char (c mod 64)] ++ base64_encode rest
  | [a; b] =>
      [b64_char (a / 4); b64_char ((a mod 4) * 16 + b / 16); b64_char ((b mod 16) * 4); 61]
  | [a] => [b64_char (a / 4); b64_char ((a mod 4) * 16); 61; 61]
  | [] => []
  end.

(** [Buffer.from(s).toString("base64")]. *)
Definition buffer_base64 (s : jstr) : jstr := base64_encode (utf8_encode s).

End Encoding.
