(* ===== verification/Runtime.v ===== *)
(** * Runtime: the effects of a Netlify function invocation

    What the handlers read from outside ([process.env], [Date.now()],
    the time zone, the upstream server, the engine's error texts) is a
    [world]; what they do to the outside (outbound [fetch] requests,
    [console.error] lines) is appended to a trace; their local mutable
    arrays live in a store of named locals. A handler is a computation of
    the monad [M]: a state (trace and locals) threaded in program order
    and an outcome that is a value or a thrown JavaScript error. [async]
    and [await] need nothing more: each handler awaits every promise
    before its next statement, so one invocation is a sequence of
    steps. [try_catch] is [try { } catch (e) { }]: the handler sees the
    state as the failed block left it. *)

From Stdlib Require Import String Ascii.
From Stdlib Require Import List ZArith Bool Lia.
From S2P Require Import Prelude JsValue Json.
Import ListNotations.
Import JsValue.
Open Scope Z_scope.

Module Runtime.

(** ** Errors, requests and upstream answers *)

(** A thrown [Error] object: its [name] and [message]. *)
Record js_error := mk_error { err_name : jstr; err_message : jstr }.

Definition TypeError (msg : jstr) : js_error := mk_error (js "TypeError") msg.
Definition SyntaxError (msg : jstr) : js_error := mk_error (js "SyntaxError") msg.
Definition RangeError (msg : jstr) : js_error := mk_error (js "RangeError") msg.

(** The arguments of [fetch(url, { method, headers, body })]. *)
Record http_request := mk_request {
  req_url : jstr;
  req_method : jstr;
  req_headers : list (jstr * jstr);
  req_body : option jstr }.

(** A [Response]: its status and its body text ([None] when reading
    the body stream fails). *)
Record fetch_response := mk_response { resp_status : Z; resp_body : option jstr }.

(** [resp.ok]: a status in the range 200-299. *)
Definition resp_ok (r : fetch_response) : bool :=
  (200 <=? resp_status r) && (resp_status r <=? 299).

(** What the [fetch] promise settles to: a response, or a rejection
    with a [TypeError] (network failure) carrying a message. *)
Inductive fetch_result :=
| FetchOk (r : fetch_response)
| FetchFail (msg : jstr).

(** The texts of the errors the engine creates; they differ between
    Node versions, so they are parameters. *)
Record engine := mk_engine {
  msg_json_syntax : jstr -> jstr;       (* JSON.parse(text) failed *)
  msg_read_property : jsval -> jstr -> jstr; (* reading v[k] of null/undefined *)
  msg_body_read : jstr;                 (* reading a response body failed *)
  msg_invalid_date : jstr }.            (* toISOString on an invalid date *)

(** The world of one invocation. [fetch n r] is the upstream answer to
    the [n]-th request (counting from 0) when it is [r]. *)
Record world := mk_world {
  env : list (jstr * jstr);
  clock : Z;
  tz : Z;
  fetch : nat -> http_request -> fetch_result;
  eng : engine }.

(** ** Trace and state *)

Inductive event :=
| EvFetch (r : http_request)
| EvLog (label : jstr) (args : list jstr).

Record state := mk_state { trace : list event; locals : list (jstr * jsval) }.

Definition initial_state : state := mk_state [] [].

(** ** The monad *)

Inductive outcome (A : Type) := Ret (a : A) | Exn (e : js_error).
Arguments Ret {A} a.
Arguments Exn {A} e.

Definition M (A : Type) : Type := world -> state -> outcome A * state.

Definition ret {A} (a : A) : M A := fun _ s => (Ret a, s).

Definition bind {A B} (m : M A) (k : A -> M B) : M B :=
  fun w s => match m w s with
             | (Ret a, s') => k a w s'
             | (Exn e, s') => (Exn e, s')
             end.

Definition throw {A} (e : js_error) : M A := fun _ s => (Exn e, s).

(** [try { m } catch (e) { h(e) }]. *)
Definition try_catch {A} (m : M A) (h : js_error -> M A) : M A :=
  fun w s => match m w s with
             | (Ret a, s') => (Ret a, s')
             | (Exn e, s') => h e w s'
             end.

Definition ask {A} (f : world -> A) : M A := fun w s => (Ret (f w), s).

Declare Scope rt_scope.
Delimit Scope rt_scope with rt.
Notation "x <- m ;; k" := (bind m (fun x => k))
  (at level 61, m at next level, right associativity) : rt_scope.
Notation "m ;;; k" := (bind m (fun _ => k))
  (at level 61, right associativity) : rt_scope.
Open Scope rt_scope.

(** ** Primitive operations *)

Definition emit (ev : event) : M unit :=
  fun _ s => (Ret tt, mk_state (trace s ++ [ev]) (locals s)).

(** [console.error(label, ...args)]. *)
Definition log (label : jstr) (args : list jstr) : M unit := emit (EvLog label args).

(** [process.env[name]]: a string, or [undefined]. *)
Definition env_value (w : world) (name : jstr) : jsval :=
  match assoc name (env w) with Some v => JStr v | None => JUndefined end.

Definition env_get (name : jstr) : M jsval := ask (fun w => env_value w name).

(** [Date.now()]. *)
Definition date_now : M Z := ask clock.

Definition fetches (tr : list event) : nat :=
  length (filter (fun ev => match ev with EvFetch _ => true | _ => false end) tr).

(** [await fetch(url, init)]: records the request, then settles. *)
Definition do_fetch (r : http_request) : M fetch_response :=
  fun w s =>
    let n := fetches (trace s) in
    let s' := mk_state (trace s ++ [EvFetch r]) (locals s) in
    match fetch w n r with
    | FetchOk resp => (Ret resp, s')
    | FetchFail msg => (Exn (TypeError msg), s')
    end.

(** [JSON.parse(text)]. *)
Definition json_parse (text : jstr) : M jsval :=
  fun w s => match Json.parse text with
             | Some v => (Ret v, s)
             | None => (Exn (SyntaxError (msg_json_syntax (eng w) text)), s)
             end.

(** [await resp.text()]. *)
Definition resp_text (r : fetch_response) : M jstr :=
  fun w s => match resp_body r with
             | Some t => (Ret t, s)
             | None => (Exn (TypeError (msg_body_read (eng w))), s)
             end.

(** [await resp.json()]: the body text, then [JSON.parse]. *)
Definition resp_json (r : fetch_response) : M jsval :=
  t <- resp_text r ;; json_parse t.

(** [v[k]]: throws a [TypeError] on [null] and [undefined]. *)
Definition get_prop (v : jsval) (k : jstr) : M jsval :=
  fun w s => match get v k with
             | Some x => (Ret x, s)
             | None => (Exn (TypeError (msg_read_property (eng w) v k)), s)
             end.

(** A date computation whose [None] is the [RangeError] that
    [toISOString] throws on an invalid date. *)
Definition range_check {A} (d : option A) : M A :=
  fun w s => match d with
             | Some a => (Ret a, s)
             | None => (Exn (RangeError (msg_invalid_date (eng w))), s)
             end.

(** Local variables holding arrays mutated in place ([push]). *)
Definition get_local (x : jstr) : M jsval :=
  fun _ s => (Ret (match assoc x (locals s) with Some v => v | None => JUndefined end), s).

Definition set_local (x : jstr) (v : jsval) : M unit :=
  fun _ s => (Ret tt, mk_state (trace s) ((x, v) :: locals s)).

(** [arr.push(...xs)] on the array held by local [x]. *)
Definition push_local (x : jstr) (xs : list jsval) : M unit :=
  a <- get_local x ;;
  match a with
  | JArr vs => set_local x (JArr (vs ++ xs))
  | _ => set_local x (JArr xs)
  end.

(** ** HTTP event and response *)

Module Event.
(** The Netlify event fields the handlers read. The query string is
    [null] or an object whose values are strings. *)
Record t := mk {
  httpMethod : jstr;
  queryStringParameters : option (list (jstr * jstr));
  body : option jstr }.
End Event.

Module Response.
(** [{ statusCode, headers, body }]; a missing body is [None]. *)
Record t := mk {
  statusCode : Z;
  headers : list (jstr * jstr);
  body : option jstr }.
End Response.

(** ** Effect bounds

    [sends_at_most k m]: from any state, [m] only appends to the trace,
    and what it appends holds at most [k] outbound requests. *)
Definition sends_at_most {A} (k : nat) (m : M A) : Prop :=
  forall w s, exists tr, trace (snd (m w s)) = trace s ++ tr /\ (fetches tr <= k)%nat.

(** The error texts of V8 (Node 18), used by the concrete examples. *)
Definition node_engine : engine :=
  mk_engine (fun _ => js "Unexpected end of JSON input")
    (fun v k => js "Cannot read properties of " ++ to_string v ++ js " (reading '" ++ k ++ js "')")
    (js "Body is unusable") (js "Invalid time value").

(** Run a handler on an event from the initial state. *)
Definition run {A} (h : M A) (w : world) : outcome A * state := h w initial_state.

(** Unfold the monad and its primitive operations (and nothing else). *)
Ltac rt_unfold :=
  cbv beta iota zeta delta [bind ret throw try_catch ask emit log env_get date_now
    do_fetch json_parse resp_text resp_json get_prop range_check get_local set_local
    push_local run negb orb andb];
  cbn [trace locals].

(** ** Monad laws *)

Lemma bind_ret_l {A B} (a : A) (k : A -> M B) : bind (ret a) k = k a.
Proof. reflexivity. Qed.

Lemma bind_assoc {A B C} (m : M A) (k : A -> M B) (k' : B -> M C) w s :
  bind (bind m k) k' w s = bind m (fun a => bind (k a) k') w s.
Proof. unfold bind. destruct (m w s) as [[a|e] s']; reflexivity. Qed.

Lemma try_catch_ret {A} (a : A) (h : js_error -> M A) : try_catch (ret a) h = ret a.
Proof. reflexivity. Qed.

Lemma try_catch_ext {A} (m m' : M A) (h : js_error -> M A) w s :
  m w s = m' w s -> try_catch m h w s = try_catch m' h w s.
Proof. intros H. unfold try_catch. rewrite H. reflexivity. Qed.

(** A [try]/[catch] whose handler always returns never rejects. *)
Lemma try_catch_total {A} (m : M A) (h : js_error -> M A) w s :
  (forall e s0, exists a s1, h e w s0 = (Ret a, s1)) ->
  exists a s', try_catch m h w s = (Ret a, s').
Proof.
  intros Hh. unfold try_catch. destruct (m w s) as [[a|e] s']; eauto.
Qed.

Lemma fetches_snoc (tr : list event) (r : http_request) :
  fetches (tr ++ [EvFetch r]) = S (fetches tr).
Proof. unfold fetches. rewrite filter_app, length_app. cbn. lia. Qed.

Lemma fetches_log (tr : list event) l a : fetches (tr ++ [EvLog l a]) = fetches tr.
Proof. unfold fetches. rewrite filter_app, length_app. cbn. lia. Qed.

(** [push] on a local array. *)
Lemma push_local_spec (x : jstr) (xs old : list jsval) w s :
  assoc x (locals s) = Some (JArr old) ->
  push_local x xs w s = (Ret tt, mk_state (trace s) ((x, JArr (old ++ xs)) :: locals s)).
Proof. intros H. unfold push_local. rt_unfold. rewrite H. reflexivity. Qed.

Lemma get_prop_defined (v : jsval) (k : jstr) w s :
  v <> JNull -> v <> JUndefined -> get_prop v k w s = (Ret (get_opt v k), s).
Proof. intros Hn Hu. unfold get_prop. rewrite (get_defined v k Hn Hu). reflexivity. Qed.

Lemma try_catch_throw {A} (e : js_error) (h : js_error -> M A) : try_catch (throw e) h = h e.
Proof. reflexivity. Qed.

(** ** Effect bounds, compositionally *)

Lemma fetches_app (t1 t2 : list event) : fetches (t1 ++ t2) = (fetches t1 + fetches t2)%nat.
Proof. unfold fetches. rewrite filter_app, length_app. reflexivity. Qed.

(** An operation that leaves the trace as it is. *)
Lemma sends_none {A} (m : M A) :
  (forall w s, trace (snd (m w s)) = trace s) -> sends_at_most 0 m.
Proof. intros H w s. exists []. rewrite H, app_nil_r. split; [reflexivity | cbn; lia]. Qed.

Lemma sends_mono {A} (k k' : nat) (m : M A) :
  (k <= k')%nat -> sends_at_most k m -> sends_at_most k' m.
Proof. intros Hk H w s. destruct (H w s) as (tr & Htr & Hf). exists tr. split; [exact Htr | lia]. Qed.

Lemma sends_ret {A} (a : A) : sends_at_most 0 (ret a).
Proof. apply sends_none. reflexivity. Qed.

Lemma sends_throw {A} (e : js_error) : sends_at_most 0 (@throw A e).
Proof. apply sends_none. reflexivity. Qed.

Lemma sends_ask {A} (f : world -> A) : sends_at_most 0 (ask f).
Proof. apply sends_none. reflexivity. Qed.

Lemma sends_log (l : jstr) (args : list jstr) : sends_at_most 0 (log l args).
Proof. intros w s. exists [EvLog l args]. split; [reflexivity | cbn; lia]. Qed.

Lemma sends_do_fetch (r : http_request) : sends_at_most 1 (do_fetch r).
Proof.
  intros w s. exists [EvFetch r]. unfold do_fetch.
  split; [destruct (fetch w _ r); reflexivity | cbn; lia].
Qed.

Lemma sends_json_parse (t : jstr) : sends_at_most 0 (json_parse t).
Proof. apply sends_none. intros w s. unfold json_parse. destruct (Json.parse t); reflexivity. Qed.

Lemma sends_resp_text (r : fetch_response) : sends_at_most 0 (resp_text r).
Proof. apply sends_none. intros w s. unfold resp_text. destruct (resp_body r); reflexivity. Qed.

Lemma sends_get_prop (v : jsval) (k : jstr) : sends_at_most 0 (get_prop v k).
Proof. apply sends_none. intros w s. unfold get_prop. destruct (get v k); reflexivity. Qed.

Lemma sends_range_check {A} (d : option A) : sends_at_most 0 (range_check d).
Proof. apply sends_none. intros w s. unfold range_check. destruct d; reflexivity. Qed.

Lemma sends_get_local (x : jstr) : sends_at_most 0 (get_local x).
Proof. apply sends_none. reflexivity. Qed.

Lemma sends_set_local (x : jstr) (v : jsval) : sends_at_most 0 (set_local x v).
Proof. apply sends_none. reflexivity. Qed.

Lemma sends_bind {A B} (k1 k2 : nat) (m : M A) (f : A -> M B) :
  sends_at_most k1 m -> (forall a, sends_at_most k2 (f a)) -> sends_at_most (k1 + k2) (bind m f).
Proof.
  intros Hm Hf w s. destruct (Hm w s) as (tr1 & H1 & F1). unfold bind.
  destruct (m w s) as [[a|e] s1]; cbn [snd] in H1 |- *.
  - destruct (Hf a w s1) as (tr2 & H2 & F2). exists (tr1 ++ tr2).
    rewrite H2, H1, app_assoc, fetches_app. split; [reflexivity | lia].
  - exists tr1. split; [exact H1 | lia].
Qed.

Lemma sends_try_catch {A} (k1 k2 : nat) (m : M A) (h : js_error -> M A) :
  sends_at_most k1 m -> (forall e, sends_at_most k2 (h e)) -> sends_at_most (k1 + k2) (try_catch m h).
Proof.
  intros Hm Hh w s. destruct (Hm w s) as (tr1 & H1 & F1). unfold try_catch.
  destruct (m w s) as [[a|e] s1]; cbn [snd] in H1 |- *.
  - exists tr1. split; [exact H1 | lia].
  - destruct (Hh e w s1) as (tr2 & H2 & F2). exists (tr1 ++ tr2).
    rewrite H2, H1, app_assoc, fetches_app. split; [reflexivity | lia].
Qed.

Lemma sends_if {A} (k1 k2 : nat) (b : bool) (m1 m2 : M A) :
  sends_at_most k1 m1 -> sends_at_most k2 m2 ->
  sends_at_most (Nat.max k1 k2) (if b then m1 else m2).
Proof. intros H1 H2. destruct b; [apply (sends_mono k1) | apply (sends_mono k2)]; auto; lia. Qed.

Lemma sends_match_list {A B} (k1 k2 : nat) (l : list B) (m1 : M A) (m2 : B -> list B -> M A) :
  sends_at_most k1 m1 -> (forall x l', sends_at_most k2 (m2 x l')) ->
  sends_at_most (Nat.max k1 k2) (match l with [] => m1 | x :: l' => m2 x l' end).
Proof. intros H1 H2. destruct l; [apply (sends_mono k1) | apply (sends_mono k2)]; auto; lia. Qed.

Lemma sends_push_local (x : jstr) (xs : list jsval) : sends_at_most 0 (push_local x xs).
Proof.
  apply sends_none. intros w s. unfold push_local, bind, get_local.
  destruct (assoc x (locals s)) as [[]|]; reflexivity.
Qed.

Lemma sends_resp_json (r : fetch_response) : sends_at_most 0 (resp_json r).
Proof. apply (sends_bind 0 0); [apply sends_resp_text | intros; apply sends_json_parse]. Qed.

Create HintDb effects.
#[export] Hint Resolve sends_ret sends_throw sends_ask sends_log sends_do_fetch sends_json_parse
  sends_resp_text sends_get_prop sends_range_check sends_get_local sends_set_local
  sends_push_local sends_resp_json : effects.

(** Build the bound of a computation from its structure; the bound is
    an evar, so that each branch contributes its own. *)
Ltac sends_step :=
  match goal with
  | |- sends_at_most _ (bind _ _) => eapply sends_bind; [| intro]
  | |- sends_at_most _ (try_catch _ _) => eapply sends_try_catch; [| intro]
  | |- sends_at_most _ (if _ then _ else _) => eapply sends_if
  | |- sends_at_most _ (match _ with [] => _ | _ :: _ => _ end) => eapply sends_match_list; [| intros ? ?]
  | |- sends_at_most _ _ => solve [eauto with effects]
  end.

(** Prove [sends_at_most k m] for a concrete [k]. *)
Ltac sends_bound :=
  eapply sends_mono; [| repeat sends_step]; cbv beta; lia.

End Runtime.
