(* ===== verification/Booking.v ===== *)
(** * Booking: netlify/functions/book-appointment.js

    [Booking.handler] is [exports.handler] of book-appointment.js,
    statement by statement: the OPTIONS preflight, the 405 for other
    methods than POST, then inside one [try]: the credential check,
    [JSON.parse] of the body, the all-at-once check of the five
    required fields, the payload with defaults for [phone] and [notes],
    the POST to Acuity, and the shaping of the upstream answer; the
    [catch] turns any thrown error into a 500. *)

From Stdlib Require Import String Ascii.
From Stdlib Require Import List ZArith Bool Lia.
From S2P Require Import Prelude JsValue Json Encoding Runtime.
Import ListNotations.
Import JsValue Runtime.
Open Scope Z_scope.
Open Scope rt_scope.

Module Booking.

(** The CORS headers of every response (lines 3-7). *)
Definition headers : list (jstr * jstr) :=
  [(js "Access-Control-Allow-Origin", js "*");
   (js "Access-Control-Allow-Headers", js "Content-Type");
   (js "Access-Control-Allow-Methods", js "POST, OPTIONS")].

(** [{ statusCode, headers, body: JSON.stringify(v) }]. *)
Definition respond (code : Z) (v : jsval) : Response.t :=
  Response.mk code headers (Some (Json.stringify_str v)).

(** Line 29. *)
Definition required : list jstr :=
  [js "appointmentTypeID"; js "datetime"; js "firstName"; js "lastName"; js "email"].

(** [required.filter((k) => !booking[k])] (line 30): the callback reads
    [booking[k]] for each key in order. *)
Fixpoint missing_fields (booking : jsval) (ks : list jstr) : M (list jstr) :=
  match ks with
  | [] => ret []
  | k :: ks' =>
      v <- get_prop booking k ;;
      rest <- missing_fields booking ks' ;;
      ret (if truthy v then rest else k :: rest)
  end.

(** [event.body || "{}"] (line 27). *)
Definition body_text (b : option jstr) : jstr :=
  match b with
  | Some ((_ :: _) as t) => t
  | _ => js "{}"
  end.

(** The payload object (lines 40-51). *)
Definition payload_of (booking : jsval) : M jsval :=
  t <- get_prop booking (js "appointmentTypeID") ;;
  dt <- get_prop booking (js "datetime") ;;
  fn <- get_prop booking (js "firstName") ;;
  ln <- get_prop booking (js "lastName") ;;
  em <- get_prop booking (js "email") ;;
  ph <- get_prop booking (js "phone") ;;
  nt <- get_prop booking (js "notes") ;;
  ret (JObj [(js "appointmentTypeID", t); (js "datetime", dt); (js "firstName", fn);
             (js "lastName", ln); (js "email", em);
             (js "phone", js_or ph (JStr [])); (js "notes", js_or nt (JStr []))]).

Definition appointments_url : jstr := js "https://acuityscheduling.com/api/v1/appointments".

(** [Basic ${Buffer.from(`${userId}:${apiKey}`).toString("base64")}]
    (lines 39 and 56). *)
Definition authorization (userId apiKey : jsval) : jstr :=
  js "Basic " ++ Encoding.buffer_base64 (to_string userId ++ js ":" ++ to_string apiKey).

(** The request of lines 53-60. *)
Definition booking_request (userId apiKey payload : jsval) : http_request :=
  mk_request appointments_url (js "POST")
    [(js "Authorization", authorization userId apiKey);
     (js "Content-Type", js "application/json")]
    (Some (Json.stringify_str payload)).

(** Lines 62-77: the upstream answer. *)
Definition handle_upstream (resp : fetch_response) : M Response.t :=
  if negb (resp_ok resp) then
    text <- try_catch (resp_text resp) (fun _ => ret []) ;;
    log (js "Acuity booking error:") [to_string (int_val (resp_status resp)); text] ;;;
    ret (respond (resp_status resp)
           (JObj [(js "error", JStr (js "Booking failed"));
                  (js "message", js_or (JStr text) (JStr (to_string (int_val (resp_status resp)))))]))
  else
    data <- resp_json resp ;;
    ret (respond 200 (JObj [(js "success", JBool true); (js "appointmentId", get_opt data (js "id"));
                            (js "data", data)])).

(** The body of the [try] block (lines 17-77). *)
Definition book (event : Event.t) : M Response.t :=
  userId <- env_get (js "ACUITY_USER_ID") ;;
  apiKey <- env_get (js "ACUITY_API_KEY") ;;
  if negb (truthy userId) || negb (truthy apiKey) then
    ret (respond 500 (JObj [(js "error", JStr (js "Server is missing Acuity credentials"))]))
  else
    booking <- json_parse (body_text (Event.body event)) ;;
    missing <- missing_fields booking required ;;
    match missing with
    | _ :: _ =>
        ret (respond 400 (JObj [(js "error",
                                 JStr (js "Missing fields: " ++ join_units (js ", ") missing))]))
    | [] =>
        payload <- payload_of booking ;;
        resp <- do_fetch (booking_request userId apiKey payload) ;;
        handle_upstream resp
    end.

(** The [catch] block (lines 78-85). *)
Definition internal_error (e : js_error) : M Response.t :=
  log (js "book-appointment failed:") [err_message e] ;;;
  ret (respond 500 (JObj [(js "error", JStr (js "Internal error"));
                          (js "message", JStr (err_message e))])).

(** [exports.handler] (lines 2-86). *)
Definition handler (event : Event.t) : M Response.t :=
  if Event.httpMethod event =s? js "OPTIONS" then ret (Response.mk 200 headers None)
  else if negb (Event.httpMethod event =s? js "POST") then
    ret (Response.mk 405 headers (Some (js "Method Not Allowed")))
  else try_catch (book event) internal_error.

(** ** The validated path in closed form *)

(** The fields [required.filter((k) => !booking[k])] reports. *)
Definition missing_of (booking : jsval) : list jstr :=
  filter (fun k => negb (truthy (get_opt booking k))) required.

(** The payload read from an object: the five fields as they are,
    [phone] and [notes] defaulting to [""] when falsy. *)
Definition payload_value (booking : jsval) : jsval :=
  JObj [(js "appointmentTypeID", get_opt booking (js "appointmentTypeID"));
        (js "datetime", get_opt booking (js "datetime"));
        (js "firstName", get_opt booking (js "firstName"));
        (js "lastName", get_opt booking (js "lastName"));
        (js "email", get_opt booking (js "email"));
        (js "phone", js_or (get_opt booking (js "phone")) (JStr []));
        (js "notes", js_or (get_opt booking (js "notes")) (JStr []))].

(** The request forwarded to Acuity for a validated booking. *)
Definition forwarded_request (w : world) (booking : jsval) : http_request :=
  booking_request (env_value w (js "ACUITY_USER_ID")) (env_value w (js "ACUITY_API_KEY"))
    (payload_value booking).

(** The body text of a response whose reading failed, as
    [resp.text().catch(() => "")] gives it. *)
Definition text_or_empty (r : fetch_response) : jstr :=
  match resp_body r with Some t => t | None => [] end.

(** ** Concrete inputs of the examples *)

(** The value a JSON text parses to ([null] when it does not parse). *)
Definition parsed (t : jstr) : jsval := match Json.parse t with Some v => v | None => JNull end.

Definition sample_body : jstr :=
  jsq "{'appointmentTypeID':12,'datetime':'2026-01-05T10:00:00-05:00','firstName':'Ada','lastName':'Lovelace','email':'ada@example.com','phone':null}".

Definition sample_event (method : jstr) (body : option jstr) : Event.t := Event.mk method None body.

Definition sample_world (answer : fetch_result) : world :=
  mk_world [(js "ACUITY_USER_ID", js "1234"); (js "ACUITY_API_KEY", js "secret")]
    1764547200000 0 (fun _ _ => answer) node_engine.

Definition no_credentials : world :=
  mk_world [] 1764547200000 0 (fun _ _ => FetchFail (js "fetch failed")) node_engine.

(** [0] and [""] are falsy: four of the five fields are reported. *)
Definition partial_body : jstr := jsq "{'appointmentTypeID':0,'firstName':'Ada','email':''}".

Definition rejected : fetch_result := FetchOk (mk_response 422 (Some (js "time slot unavailable"))).

Definition created_text : jstr := jsq "{'id':123,'datetime':'2026-01-05T10:00:00-0500'}".
Definition created : fetch_result := FetchOk (mk_response 200 (Some created_text)).

(** ** Lemmas *)

Lemma method_POST_tests :
  (js "POST" =s? js "OPTIONS") = false /\ (js "POST" =s? js "POST") = true.
Proof. split; reflexivity. Qed.

(** The missing fields are computed without effect on a value whose
    properties can be read: [required.filter((k) => !booking[k])]. *)
Lemma missing_fields_spec (booking : jsval) (ks : list jstr) w s :
  booking <> JNull -> booking <> JUndefined ->
  missing_fields booking ks w s =
  (Ret (filter (fun k => negb (truthy (get_opt booking k))) ks), s).
Proof.
  intros Hn Hu. induction ks as [|k ks IH]; [reflexivity|].
  cbn [missing_fields]. rt_unfold. rewrite (get_defined booking k Hn Hu), IH.
  cbn. destruct (truthy (get_opt booking k)); reflexivity.
Qed.

Lemma payload_of_spec (booking : jsval) w s :
  booking <> JNull -> booking <> JUndefined ->
  payload_of booking w s = (Ret (payload_value booking), s).
Proof.
  intros Hn Hu. unfold payload_of, payload_value. rt_unfold.
  rewrite !(get_defined booking _ Hn Hu). reflexivity.
Qed.

(** The field check sends nothing. *)
Lemma sends_missing_fields (booking : jsval) (ks : list jstr) :
  sends_at_most 0 (missing_fields booking ks).
Proof. induction ks as [|k ks IH]; cbn [missing_fields]; sends_bound. Qed.

(** C22: a booking request causes at most one outbound request, and its
    handler only appends to the trace (whatever the event, the
    environment and the upstream). *)
Theorem booking_single_request (ev : Event.t) : sends_at_most 1 (handler ev).
Proof.
  pose proof sends_missing_fields. unfold handler, book, handle_upstream, internal_error,
    payload_of, env_get. sends_bound.
Qed.

(** ** Method gating *)

(** C20: an OPTIONS request is answered 200 with the CORS headers and no
    body, and nothing else happens. *)
Theorem booking_options (ev : Event.t) w s :
  Event.httpMethod ev = js "OPTIONS" ->
  handler ev w s = (Ret (Response.mk 200 headers None), s).
Proof. intros H. unfold handler. rewrite H, jstr_eqb_refl. reflexivity. Qed.

(** C19: a method other than OPTIONS and POST is answered 405 "Method
    Not Allowed", and nothing else happens. *)
Theorem booking_method_not_allowed (ev : Event.t) w s :
  Event.httpMethod ev <> js "OPTIONS" -> Event.httpMethod ev <> js "POST" ->
  handler ev w s = (Ret (Response.mk 405 headers (Some (js "Method Not Allowed"))), s).
Proof.
  intros H1 H2. unfold handler. rewrite (jstr_eqb_neq _ _ H1), (jstr_eqb_neq _ _ H2).
  reflexivity.
Qed.

(** ** Credentials *)

(** C9: a POST with either credential missing or empty is answered 500
    "Server is missing Acuity credentials" whatever its body, before
    the body is parsed and without contacting the upstream. *)
Theorem booking_missing_credentials (ev : Event.t) w s :
  Event.httpMethod ev = js "POST" ->
  truthy (env_value w (js "ACUITY_USER_ID")) = false \/
  truthy (env_value w (js "ACUITY_API_KEY")) = false ->
  handler ev w s =
  (Ret (respond 500 (JObj [(js "error", JStr (js "Server is missing Acuity credentials"))])), s).
Proof.
  intros Hm Hc. unfold handler. rewrite Hm.
  destruct method_POST_tests as [-> ->]. unfold book. rt_unfold.
  destruct Hc as [-> | ->]; [reflexivity | destruct (truthy (env_value w _)); reflexivity].
Qed.

(** C13: the booking handler always answers: whatever the event, the
    environment and the upstream, its promise resolves to a response
    (every error inside the [try] is caught). *)
Theorem booking_total (ev : Event.t) w s :
  exists r s', handler ev w s = (Ret r, s').
Proof.
  unfold handler. destruct (Event.httpMethod ev =s? js "OPTIONS");
    [do 2 eexists; reflexivity|].
  destruct (negb (Event.httpMethod ev =s? js "POST")); [do 2 eexists; reflexivity|].
  apply try_catch_total. intros e s0. unfold internal_error. rt_unfold. eauto.
Qed.

(** C15: a POST whose body is the JSON text [null] (valid JSON, as are
    [[]] and [5]) is not answered 400 but 500 "Internal error": reading
    [booking["appointmentTypeID"]] of [null] throws a [TypeError]. *)
Theorem booking_null_body (ev : Event.t) w s :
  Event.httpMethod ev = js "POST" -> Event.body ev = Some (js "null") ->
  truthy (env_value w (js "ACUITY_USER_ID")) = true ->
  truthy (env_value w (js "ACUITY_API_KEY")) = true ->
  handler ev w s =
  (Ret (respond 500 (JObj [(js "error", JStr (js "Internal error"));
         (js "message", JStr (msg_read_property (eng w) JNull (js "appointmentTypeID")))])),
   mk_state (trace s ++ [EvLog (js "book-appointment failed:")
                           [msg_read_property (eng w) JNull (js "appointmentTypeID")]])
     (locals s)).
Proof.
  intros Hm Hb Hu Hk. unfold handler. rewrite Hm. destruct method_POST_tests as [-> ->].
  cbn [negb]. unfold try_catch, book, internal_error. rt_unfold. rewrite Hu, Hk, Hb.
  reflexivity.
Qed.

(** ** Validation *)

Section Validated.
(** A POST with both credentials set whose body parses to a value
    other than [null]. *)
Variables (ev : Event.t) (w : world) (s : state) (booking : jsval).
Hypothesis HPost : Event.httpMethod ev = js "POST".
Hypothesis HUser : truthy (env_value w (js "ACUITY_USER_ID")) = true.
Hypothesis HKey : truthy (env_value w (js "ACUITY_API_KEY")) = true.
Hypothesis HParse : Json.parse (body_text (Event.body ev)) = Some booking.
Hypothesis HNotNull : booking <> JNull.

Let HDefined : booking <> JUndefined := Json.parse_defined _ _ HParse.

(** The handler up to the validation: what remains once the fields
    have been read. *)
Lemma handler_validated :
  handler ev w s =
  try_catch
    (match missing_of booking with
     | _ :: _ =>
         ret (respond 400 (JObj [(js "error",
                JStr (js "Missing fields: " ++ join_units (js ", ") (missing_of booking)))]))
     | [] => resp <- do_fetch (forwarded_request w booking) ;; handle_upstream resp
     end) internal_error w s.
Proof.
  unfold handler. rewrite HPost. destruct method_POST_tests as [-> ->]. cbn [negb].
  apply try_catch_ext. unfold book. rt_unfold. rewrite HUser, HKey, HParse.
  rewrite (missing_fields_spec booking required w s HNotNull HDefined).
  fold (missing_of booking). destruct (missing_of booking); [|reflexivity].
  rewrite (payload_of_spec booking w s HNotNull HDefined). reflexivity.
Qed.

(** C2: when some required fields are falsy, the answer is 400 with
    ["Missing fields: "] followed by exactly those fields, in the
    order of [required], joined by [", "]; nothing is sent upstream. *)
Theorem booking_missing_fields :
  missing_of booking <> [] ->
  handler ev w s =
  (Ret (respond 400 (JObj [(js "error",
          JStr (js "Missing fields: " ++ join_units (js ", ") (missing_of booking)))])), s).
Proof.
  intros H. rewrite handler_validated. destruct (missing_of booking); [congruence|].
  reflexivity.
Qed.

Section Forwarded.
(** All five fields are present: the request is sent. *)
Hypothesis HComplete : missing_of booking = [].

Lemma handler_forwarded :
  handler ev w s =
  try_catch (resp <- do_fetch (forwarded_request w booking) ;; handle_upstream resp)
    internal_error w s.
Proof. rewrite handler_validated, HComplete. reflexivity. Qed.

(** C4: an upstream answer with a status outside 200-299 is passed on:
    the response has the upstream status and the body
    [{error: "Booking failed", message}] where [message] is the
    upstream text, or the status when the text is empty or
    unreadable; the request and one log line are the only effects. *)
Theorem booking_upstream_error (resp : fetch_response) :
  fetch w (fetches (trace s)) (forwarded_request w booking) = FetchOk resp ->
  resp_ok resp = false ->
  handler ev w s =
  (Ret (respond (resp_status resp)
          (JObj [(js "error", JStr (js "Booking failed"));
                 (js "message", js_or (JStr (text_or_empty resp))
                                  (JStr (to_string (int_val (resp_status resp)))))])),
   mk_state (trace s ++ [EvFetch (forwarded_request w booking);
                         EvLog (js "Acuity booking error:")
                           [to_string (int_val (resp_status resp)); text_or_empty resp]])
     (locals s)).
Proof.
  intros Hf Hok. rewrite handler_forwarded. unfold handle_upstream, text_or_empty.
  rt_unfold. rewrite Hf, Hok. cbn [negb].
  destruct (resp_body resp); cbn [trace locals]; rewrite <- app_assoc; reflexivity.
Qed.

(** C3: a 2xx answer whose body is JSON is answered 200 with
    [{success: true, appointmentId: data?.id, data}]; the request is
    the only effect. *)
Theorem booking_success (resp : fetch_response) (text : jstr) (data : jsval) :
  fetch w (fetches (trace s)) (forwarded_request w booking) = FetchOk resp ->
  resp_ok resp = true -> resp_body resp = Some text -> Json.parse text = Some data ->
  handler ev w s =
  (Ret (respond 200 (JObj [(js "success", JBool true);
                           (js "appointmentId", get_opt data (js "id"));
                           (js "data", data)])),
   mk_state (trace s ++ [EvFetch (forwarded_request w booking)]) (locals s)).
Proof.
  intros Hf Hok Hb Hp. rewrite handler_forwarded. unfold handle_upstream.
  rt_unfold. rewrite Hf, Hok, Hb, Hp. reflexivity.
Qed.

(** C16: a network failure of the request is answered 500
    [{error: "Internal error", message}] with the fetch error's
    message, after one log line. *)
Theorem booking_fetch_failure (msg : jstr) :
  fetch w (fetches (trace s)) (forwarded_request w booking) = FetchFail msg ->
  handler ev w s =
  (Ret (respond 500 (JObj [(js "error", JStr (js "Internal error"));
                           (js "message", JStr msg)])),
   mk_state (trace s ++ [EvFetch (forwarded_request w booking);
                         EvLog (js "book-appointment failed:") [msg]]) (locals s)).
Proof.
  intros Hf. rewrite handler_forwarded. unfold internal_error.
  rt_unfold. rewrite Hf. rt_unfold. rewrite <- app_assoc. reflexivity.
Qed.
End Forwarded.

End Validated.

(** ** Examples *)

Lemma booking_options_witness :
  handler (sample_event (js "OPTIONS") None) no_credentials initial_state =
  (Ret (Response.mk 200 headers None), initial_state).
Proof. apply booking_options. reflexivity. Defined.

Lemma booking_method_not_allowed_witness :
  handler (sample_event (js "GET") None) no_credentials initial_state =
  (Ret (Response.mk 405 headers (Some (js "Method Not Allowed"))), initial_state).
Proof. apply booking_method_not_allowed; vm_compute; discriminate. Defined.

Lemma booking_missing_credentials_witness :
  handler (sample_event (js "POST") (Some sample_body)) no_credentials initial_state =
  (Ret (respond 500 (JObj [(js "error", JStr (js "Server is missing Acuity credentials"))])),
   initial_state).
Proof. apply booking_missing_credentials; [reflexivity | left; reflexivity]. Defined.

Lemma booking_null_body_witness :
  fst (handler (sample_event (js "POST") (Some (js "null"))) (sample_world (FetchFail [])) initial_state) =
  Ret (respond 500 (JObj [(js "error", JStr (js "Internal error"));
         (js "message", JStr (js "Cannot read properties of null (reading 'appointmentTypeID')"))])).
Proof. rewrite booking_null_body by reflexivity. vm_compute. reflexivity. Defined.

Lemma booking_missing_fields_witness :
  fst (handler (sample_event (js "POST") (Some partial_body)) (sample_world (FetchFail [])) initial_state) =
  Ret (respond 400 (JObj [(js "error",
         JStr (js "Missing fields: appointmentTypeID, datetime, lastName, email"))])).
Proof.
  rewrite (booking_missing_fields (sample_event (js "POST") (Some partial_body))
             (sample_world (FetchFail [])) initial_state (parsed partial_body) eq_refl eq_refl eq_refl eq_refl
             ltac:(vm_compute; discriminate) ltac:(vm_compute; discriminate)).
  vm_compute. reflexivity.
Defined.

Lemma booking_upstream_error_witness :
  fst (handler (sample_event (js "POST") (Some sample_body)) (sample_world rejected) initial_state) =
  Ret (respond 422 (JObj [(js "error", JStr (js "Booking failed"));
                          (js "message", JStr (js "time slot unavailable"))])).
Proof.
  rewrite (booking_upstream_error (sample_event (js "POST") (Some sample_body))
             (sample_world rejected) initial_state (parsed sample_body) eq_refl eq_refl eq_refl eq_refl
             ltac:(vm_compute; discriminate) eq_refl
             (mk_response 422 (Some (js "time slot unavailable"))) eq_refl eq_refl).
  vm_compute. reflexivity.
Defined.

Lemma booking_success_witness :
  fst (handler (sample_event (js "POST") (Some sample_body)) (sample_world created) initial_state) =
  Ret (respond 200 (JObj [(js "success", JBool true); (js "appointmentId", JNum 123 0);
                          (js "data", parsed created_text)])).
Proof.
  rewrite (booking_success (sample_event (js "POST") (Some sample_body))
             (sample_world created) initial_state (parsed sample_body) eq_refl eq_refl eq_refl eq_refl
             ltac:(vm_compute; discriminate) eq_refl
             (mk_response 200 (Some created_text)) created_text (parsed created_text)
             eq_refl eq_refl eq_refl eq_refl).
  vm_compute. reflexivity.
Defined.

Lemma booking_fetch_failure_witness :
  fst (handler (sample_event (js "POST") (Some sample_body))
         (sample_world (FetchFail (js "fetch failed"))) initial_state) =
  Ret (respond 500 (JObj [(js "error", JStr (js "Internal error"));
                          (js "message", JStr (js "fetch failed"))])).
Proof.
  rewrite (booking_fetch_failure (sample_event (js "POST") (Some sample_body))
             (sample_world (FetchFail (js "fetch failed"))) initial_state (parsed sample_body) eq_refl eq_refl eq_refl eq_refl
             ltac:(vm_compute; discriminate) eq_refl (js "fetch failed") eq_refl).
  vm_compute. reflexivity.
Defined.

(** An [appointmentTypeID] of [1e-400] is the Number 0 after
    [JSON.parse], hence falsy: the booking is rejected as in Node. *)
Example booking_underflow_type :
  fst (handler (sample_event (js "POST")
         (Some (jsq "{'appointmentTypeID':1e-400,'datetime':'d','firstName':'f','lastName':'l','email':'e'}")))
         (sample_world (FetchFail [])) initial_state) =
  Ret (respond 400 (JObj [(js "error", JStr (js "Missing fields: appointmentTypeID"))])).
Proof. vm_compute. reflexivity. Qed.

End Booking.
