(* ===== verification/Availability.v ===== *)
(** * Availability: netlify/functions/get-availability.js

    [Availability.handler] is [exports.handler] of get-availability.js:
    the OPTIONS preflight, then inside one [try]: the query string
    ([appointmentTypeId] or [appointmentTypeID], [debug === '1']), the
    400 on a missing type, the placeholder answer when a credential is
    missing, the two month tokens, two isolated upstream queries (each
    in its own [try]) that push into the local arrays [allResults] and
    [debugInfo], and the debug object or the first 12 slots; the outer
    [catch] answers 500. *)

From Stdlib Require Import String Ascii.
From Stdlib Require Import List ZArith Bool Lia.
From S2P Require Import Prelude JsValue Json JsDate Encoding Runtime.
Import ListNotations.
Import JsValue Runtime.
Open Scope Z_scope.
Open Scope rt_scope.

Module Availability.

(** The CORS headers of every response (lines 2-6). *)
Definition headers : list (jstr * jstr) :=
  [(js "Access-Control-Allow-Origin", js "*");
   (js "Access-Control-Allow-Headers", js "Content-Type");
   (js "Access-Control-Allow-Methods", js "GET, OPTIONS")].

Definition respond (code : Z) (v : jsval) : Response.t :=
  Response.mk code headers (Some (Json.stringify_str v)).

(** [event.queryStringParameters || {}] (line 13). *)
Definition query_object (q : option (list (jstr * jstr))) : jsval :=
  match q with
  | Some kvs => JObj (map (fun kv => (fst kv, JStr (snd kv))) kvs)
  | None => JObj []
  end.

(** [x === '1'] (line 15). *)
Definition strict_eq_str (v : jsval) (t : jstr) : bool :=
  match v with JStr u => u =s? t | _ => false end.

(** The elements of an array, as [push(...data)] spreads them. *)
Definition elements (v : jsval) : list jsval :=
  match v with JArr vs => vs | _ => [] end.

Definition allResults : jstr := js "allResults".
Definition debugInfo : jstr := js "debugInfo".

(** The URL of lines 51 and 71; the type id is interpolated as it is. *)
Definition availability_url (appointmentTypeId : jsval) (month : jstr) : jstr :=
  js "https://acuityscheduling.com/api/v1/availability/times?appointmentTypeID="
  ++ to_string appointmentTypeId ++ js "&month=" ++ month.

(** [fetch(url, { headers: { Authorization: `Basic ${auth}` } })]: a GET. *)
Definition month_request (url auth : jstr) : http_request :=
  mk_request url (js "GET") [(js "Authorization", js "Basic " ++ auth)] None.

(** One month's query (lines 50-67 and 70-87), [label] being
    ["Current month"] or ["Next month"]. *)
Definition query_month (label url auth : jstr) : M unit :=
  try_catch
    (resp <- do_fetch (month_request url auth) ;;
     if resp_ok resp then
       data <- resp_json resp ;;
       (if is_array data then push_local allResults (elements data) else ret tt) ;;;
       len <- get_prop data (js "length") ;;
       push_local debugInfo [JStr (label ++ js ": " ++ to_string len ++ js " results")]
     else
       push_local debugInfo
         [JStr (label ++ js ": HTTP " ++ to_string (int_val (resp_status resp)))])
    (fun e => push_local debugInfo [JStr (label ++ js " error: " ++ err_message e)]).

Definition placeholder_debug : jstr :=
  js "Missing ACUITY_USER or ACUITY_KEY environment variables".

(** Lines 89-118: the answer built from the two arrays. *)
Definition answer (debug : bool) (appointmentTypeId userId apiKey : jsval) : M Response.t :=
  all <- get_local allResults ;;
  info <- get_local debugInfo ;;
  if debug then
    ret (respond 200 (JObj
      [(js "appointmentTypeId", appointmentTypeId);
       (js "userId", JStr (if truthy userId then js "SET" else js "MISSING"));
       (js "apiKey", JStr (if truthy apiKey then js "SET" else js "MISSING"));
       (js "debugInfo", info);
       (js "totalResults", int_val (Z.of_nat (length (elements all))));
       (js "sampleResults", JArr (firstn 3 (elements all)))]))
  else if 0 <? Z.of_nat (length (elements all)) then
    ret (respond 200 (JArr (firstn 12 (elements all))))
  else ret (respond 200 (JArr [])).

(** The body of the outer [try] (lines 13-118). *)
Definition availability (event : Event.t) : M Response.t :=
  let qs := query_object (Event.queryStringParameters event) in
  id1 <- get_prop qs (js "appointmentTypeId") ;;
  id2 <- get_prop qs (js "appointmentTypeID") ;;
  let appointmentTypeId := js_or id1 id2 in
  d <- get_prop qs (js "debug") ;;
  let debug := strict_eq_str d (js "1") in
  if negb (truthy appointmentTypeId) then
    ret (respond 400 (JObj [(js "error", JStr (js "Missing appointmentTypeId"))]))
  else
    userId <- env_get (js "ACUITY_USER") ;;
    apiKey <- env_get (js "ACUITY_KEY") ;;
    if negb (truthy userId) || negb (truthy apiKey) then
      n <- date_now ;;
      time <- range_check (JsDate.placeholder_time n) ;;
      ret (respond 200 (JArr [JObj [(js "time", JStr time);
                                    (js "debug", JStr placeholder_debug)]]))
    else
      now <- date_now ;;
      zone <- ask tz ;;
      currentMonth <- range_check (JsDate.currentMonth now) ;;
      nextMonth <- range_check (JsDate.nextMonth zone now) ;;
      let auth := Encoding.buffer_base64 (to_string userId ++ js ":" ++ to_string apiKey) in
      set_local allResults (JArr []) ;;;
      set_local debugInfo (JArr []) ;;;
      query_month (js "Current month") (availability_url appointmentTypeId currentMonth) auth ;;;
      query_month (js "Next month") (availability_url appointmentTypeId nextMonth) auth ;;;
      answer debug appointmentTypeId userId apiKey.

(** The [catch] block (lines 120-127). *)
Definition function_error (e : js_error) : M Response.t :=
  log (js "Function error:") [err_message e] ;;;
  ret (respond 500 (JObj [(js "error", JStr (err_message e))])).

(** [exports.handler] (lines 1-128). *)
Definition handler (event : Event.t) : M Response.t :=
  if Event.httpMethod event =s? js "OPTIONS" then ret (Response.mk 200 headers None)
  else try_catch (availability event) function_error.

(** ** Derived forms *)

(** The query-string values the handler reads (lines 13-15). *)
Definition type_id (q : option (list (jstr * jstr))) : jsval :=
  js_or (get_opt (query_object q) (js "appointmentTypeId"))
        (get_opt (query_object q) (js "appointmentTypeID")).

Definition debug_flag (q : option (list (jstr * jstr))) : bool :=
  strict_eq_str (get_opt (query_object q) (js "debug")) (js "1").

(** [Buffer.from(`${userId}:${apiKey}`).toString("base64")] (line 45). *)
Definition auth_of (w : world) : jstr :=
  Encoding.buffer_base64 (to_string (env_value w (js "ACUITY_USER")) ++ js ":"
                          ++ to_string (env_value w (js "ACUITY_KEY"))).

(** ** Abstract specification of one query *)

(** What one month's query contributes to [allResults] and to
    [debugInfo], given the upstream's answer. *)
Definition query_outcome (label : jstr) (e : engine) (r : fetch_result) : list jsval * jstr :=
  match r with
  | FetchFail msg => ([], label ++ js " error: " ++ msg)
  | FetchOk resp =>
      if resp_ok resp then
        match resp_body resp with
        | None => ([], label ++ js " error: " ++ msg_body_read e)
        | Some t =>
            match Json.parse t with
            | None => ([], label ++ js " error: " ++ msg_json_syntax e t)
            | Some data =>
                match get data (js "length") with
                | None => (elements data,
                           label ++ js " error: " ++ msg_read_property e data (js "length"))
                | Some len => (elements data, label ++ js ": " ++ to_string len ++ js " results")
                end
            end
        end
      else ([], label ++ js ": HTTP " ++ to_string (int_val (resp_status resp)))
  end.

Definition slots (label : jstr) (e : engine) (r : fetch_result) : list jsval :=
  fst (query_outcome label e r).

Definition diag (label : jstr) (e : engine) (r : fetch_result) : jstr :=
  snd (query_outcome label e r).

(** The abstract answer: the first 12 of the current month's slots
    followed by the next month's, in that order, without sorting or
    removing duplicates. *)
Definition expected_slots (e : engine) (r1 r2 : fetch_result) : list jsval :=
  firstn 12 (slots (js "Current month") e r1 ++ slots (js "Next month") e r2).

(** ** Concrete inputs of the examples *)

Definition slots_text : jstr :=
  jsq "[{'time':'2026-01-05T09:00:00-0500'},{'time':'2026-01-06T09:00:00-0500'},{'time':'2026-01-07T09:00:00-0500'}]".

(** An upstream that fails the first request and answers three slots
    to any later one. *)
Definition flaky_upstream (n : nat) (_ : http_request) : fetch_result :=
  match n with
  | O => FetchFail (js "fetch failed")
  | S _ => FetchOk (mk_response 200 (Some slots_text))
  end.

(** 2025-12-01T10:00:00Z. *)
Definition sample_clock : Z := 1764583200000.

Definition sample_world (zone : Z) (up : nat -> http_request -> fetch_result) : world :=
  mk_world [(js "ACUITY_USER", js "1234"); (js "ACUITY_KEY", js "secret")]
    sample_clock zone up node_engine.

Definition no_credentials : world := mk_world [] sample_clock 0 flaky_upstream node_engine.

Definition get_event (q : list (jstr * jstr)) : Event.t := Event.mk (js "GET") (Some q) None.

Definition type12 : list (jstr * jstr) := [(js "appointmentTypeId", js "12")].

(** The three slots of the next month (the current month's request
    failed). *)
Definition three_slots : list jsval :=
  match Json.parse slots_text with Some v => elements v | None => [] end.

Definition debug12 : list (jstr * jstr) := [(js "appointmentTypeID", js "12"); (js "debug", js "1")].

(** ** Lemmas *)

Lemma allResults_debugInfo : (allResults =s? debugInfo) = false /\ (debugInfo =s? allResults) = false.
Proof. split; reflexivity. Qed.

Lemma elements_not_array (v : jsval) : is_array v = false -> elements v = [].
Proof. destruct v; cbn; congruence. Qed.

(** One query appends its request to the trace and its outcome to the
    two arrays, and never throws. *)
Lemma query_month_spec (label url auth : jstr) (res info : list jsval) w s :
  assoc allResults (locals s) = Some (JArr res) ->
  assoc debugInfo (locals s) = Some (JArr info) ->
  let r := fetch w (fetches (trace s)) (month_request url auth) in
  exists ls,
    query_month label url auth w s =
      (Ret tt, mk_state (trace s ++ [EvFetch (month_request url auth)]) ls) /\
    assoc allResults ls = Some (JArr (res ++ slots label (eng w) r)) /\
    assoc debugInfo ls = Some (JArr (info ++ [JStr (diag label (eng w) r)])).
Proof.
  intros Hr Hi r. subst r. unfold query_month, slots, diag, query_outcome, resp_json, push_local.
  destruct allResults_debugInfo as [Hrd Hdr].
  destruct (fetch w (fetches (trace s)) (month_request url auth)) as [resp|msg] eqn:Ef;
    [destruct (resp_ok resp) eqn:Eo;
       [destruct (resp_body resp) as [t|] eqn:Eb;
          [destruct (Json.parse t) as [data|] eqn:Ep;
             [destruct (is_array data) eqn:Ea; destruct (get data (js "length")) eqn:Eg|]|]|]|];
    repeat progress (rt_unfold; cbn [assoc];
                     rewrite ?Ef, ?Eo, ?Eb, ?Ep, ?Ea, ?Eg, ?Hr, ?Hi, ?Hrd, ?Hdr, ?jstr_eqb_refl);
    try rewrite (elements_not_array _ Ea); rewrite ?app_nil_r;
    eexists; (split; [reflexivity|]); cbn [assoc];
    rewrite ?Hr, ?Hi, ?Hrd, ?Hdr, ?jstr_eqb_refl; auto.
Qed.

Lemma get_query_object (q : option (list (jstr * jstr))) (k : jstr) :
  get (query_object q) k = Some (get_opt (query_object q) k).
Proof. destruct q; reflexivity. Qed.

(** The handler once the query string is read. *)
Lemma handler_reads (ev : Event.t) w s :
  Event.httpMethod ev <> js "OPTIONS" ->
  handler ev w s =
  try_catch
    (if negb (truthy (type_id (Event.queryStringParameters ev))) then
       ret (respond 400 (JObj [(js "error", JStr (js "Missing appointmentTypeId"))]))
     else
       userId <- env_get (js "ACUITY_USER") ;;
       apiKey <- env_get (js "ACUITY_KEY") ;;
       if negb (truthy userId) || negb (truthy apiKey) then
         n <- date_now ;;
         time <- range_check (JsDate.placeholder_time n) ;;
         ret (respond 200 (JArr [JObj [(js "time", JStr time);
                                       (js "debug", JStr placeholder_debug)]]))
       else
         now <- date_now ;;
         zone <- ask tz ;;
         currentMonth <- range_check (JsDate.currentMonth now) ;;
         nextMonth <- range_check (JsDate.nextMonth zone now) ;;
         let auth := Encoding.buffer_base64 (to_string userId ++ js ":" ++ to_string apiKey) in
         set_local allResults (JArr []) ;;;
         set_local debugInfo (JArr []) ;;;
         query_month (js "Current month")
           (availability_url (type_id (Event.queryStringParameters ev)) currentMonth) auth ;;;
         query_month (js "Next month")
           (availability_url (type_id (Event.queryStringParameters ev)) nextMonth) auth ;;;
         answer (debug_flag (Event.queryStringParameters ev))
           (type_id (Event.queryStringParameters ev)) userId apiKey)
    function_error w s.
Proof.
  intros Hm. unfold handler. rewrite (jstr_eqb_neq _ _ Hm). apply try_catch_ext.
  unfold availability, bind at 1 2 3, get_prop. rewrite !get_query_object. reflexivity.
Qed.

(** C21: an OPTIONS request is answered 200 with the CORS headers and no
    body, and nothing else happens. *)
Theorem availability_options (ev : Event.t) w s :
  Event.httpMethod ev = js "OPTIONS" ->
  handler ev w s = (Ret (Response.mk 200 headers None), s).
Proof. intros H. unfold handler. rewrite H, jstr_eqb_refl. reflexivity. Qed.

(** C10: without [appointmentTypeId] (nor [appointmentTypeID]) the answer
    is 400 [{error: "Missing appointmentTypeId"}], whatever the method,
    the debug flag, the credentials and the clock; nothing is sent. *)
Theorem availability_missing_type (ev : Event.t) w s :
  Event.httpMethod ev <> js "OPTIONS" ->
  truthy (type_id (Event.queryStringParameters ev)) = false ->
  handler ev w s =
  (Ret (respond 400 (JObj [(js "error", JStr (js "Missing appointmentTypeId"))])), s).
Proof. intros Hm Ht. rewrite (handler_reads ev w s Hm), Ht. reflexivity. Qed.

(** C11: with a type but a missing credential the answer is 200 with one
    placeholder slot whose [time] is the ISO string of exactly 35 days
    after [Date.now()], and the [debug] text naming the variables;
    nothing is sent. *)
Theorem availability_placeholder (ev : Event.t) w s :
  Event.httpMethod ev <> js "OPTIONS" ->
  truthy (type_id (Event.queryStringParameters ev)) = true ->
  truthy (env_value w (js "ACUITY_USER")) = false \/
  truthy (env_value w (js "ACUITY_KEY")) = false ->
  Z.abs (clock w + 35 * 24 * 60 * 60 * 1000) <= 8640000000000000 ->
  handler ev w s =
  (Ret (respond 200 (JArr [JObj [(js "time", JStr (JsDate.iso_string (clock w + 35 * 24 * 60 * 60 * 1000)));
                                 (js "debug", JStr placeholder_debug)]])), s).
Proof.
  intros Hm Ht Hc Hr. rewrite (handler_reads ev w s Hm), Ht.
  unfold JsDate.placeholder_time, JsDate.toISOString, JsDate.TimeClip. rt_unfold.
  assert (Hc' : (negb (truthy (env_value w (js "ACUITY_USER")))
                 || negb (truthy (env_value w (js "ACUITY_KEY")))) = true)
    by (destruct Hc as [-> | ->]; [|destruct (truthy (env_value w (js "ACUITY_USER")))];
        reflexivity).
  revert Hc'. rt_unfold. intros ->. rt_unfold. rewrite (proj2 (Z.leb_le _ _) Hr). reflexivity.
Qed.

(** [answer] reads the two arrays and never throws. *)
Lemma answer_total (debug : bool) (tid userId apiKey : jsval) w s :
  exists r s', answer debug tid userId apiKey w s = (Ret r, s').
Proof.
  unfold answer. rt_unfold. destruct debug; [eauto|].
  case_tests; eauto.
Qed.

(** ** The two queries *)

Section Queried.
(** A request with a type id, both credentials set, and a clock and
    time zone for which both month tokens exist. *)
Variables (ev : Event.t) (w : world) (s : state) (cm nm : jstr).
Hypothesis HMethod : Event.httpMethod ev <> js "OPTIONS".
Hypothesis HType : truthy (type_id (Event.queryStringParameters ev)) = true.
Hypothesis HUser : truthy (env_value w (js "ACUITY_USER")) = true.
Hypothesis HKey : truthy (env_value w (js "ACUITY_KEY")) = true.
Hypothesis HCurrent : JsDate.currentMonth (clock w) = Some cm.
Hypothesis HNext : JsDate.nextMonth (tz w) (clock w) = Some nm.

Definition request1 : http_request :=
  month_request (availability_url (type_id (Event.queryStringParameters ev)) cm) (auth_of w).
Definition request2 : http_request :=
  month_request (availability_url (type_id (Event.queryStringParameters ev)) nm) (auth_of w).
Definition answer1 : fetch_result := fetch w (fetches (trace s)) request1.
Definition answer2 : fetch_result := fetch w (S (fetches (trace s))) request2.

(** The handler runs both queries, in this order, then [answer]. *)
Lemma handler_queried :
  exists ls,
    assoc allResults ls =
      Some (JArr (slots (js "Current month") (eng w) answer1
                  ++ slots (js "Next month") (eng w) answer2)) /\
    assoc debugInfo ls =
      Some (JArr [JStr (diag (js "Current month") (eng w) answer1);
                  JStr (diag (js "Next month") (eng w) answer2)]) /\
    handler ev w s =
    answer (debug_flag (Event.queryStringParameters ev))
      (type_id (Event.queryStringParameters ev))
      (env_value w (js "ACUITY_USER")) (env_value w (js "ACUITY_KEY")) w
      (mk_state (trace s ++ [EvFetch request1; EvFetch request2]) ls).
Proof.
  rewrite (handler_reads ev w s HMethod), HType. cbn [negb].
  unfold try_catch at 1. rt_unfold. rewrite HUser, HKey. cbn [negb orb].
  rewrite HCurrent, HNext. rt_unfold.
  set (ls0 := (debugInfo, JArr []) :: (allResults, JArr []) :: locals s).
  destruct (query_month_spec (js "Current month")
              (availability_url (type_id (Event.queryStringParameters ev)) cm)
              (auth_of w) [] [] w (mk_state (trace s) ls0) eq_refl eq_refl)
    as (ls1 & Hq1 & Hr1 & Hi1).
  unfold auth_of in Hq1. cbn [trace locals] in Hq1. rewrite Hq1. rt_unfold.
  destruct (query_month_spec (js "Next month")
              (availability_url (type_id (Event.queryStringParameters ev)) nm)
              (auth_of w) _ _ w (mk_state (trace s ++ [EvFetch request1]) ls1) Hr1 Hi1)
    as (ls2 & Hq2 & Hr2 & Hi2).
  unfold request1, auth_of in Hq2. cbn [trace locals] in Hq2, Hr2, Hi2. rewrite Hq2. rt_unfold.
  rewrite fetches_snoc in Hr2, Hi2.
  exists ls2. split; [exact Hr2|]. split; [exact Hi2|].
  fold (auth_of w). fold request1 request2. rewrite <- app_assoc. cbn [app]. unfold try_catch.
  destruct (answer_total (debug_flag (Event.queryStringParameters ev))
              (type_id (Event.queryStringParameters ev)) (env_value w (js "ACUITY_USER"))
              (env_value w (js "ACUITY_KEY")) w
              (mk_state (trace s ++ [EvFetch request1; EvFetch request2]) ls2))
    as (r & s' & Ea).
  rewrite Ea. reflexivity.
Qed.

Let all := slots (js "Current month") (eng w) answer1 ++ slots (js "Next month") (eng w) answer2.

(** Without the debug flag the answer is the abstract one. *)
Lemma handler_unflagged :
  debug_flag (Event.queryStringParameters ev) = false ->
  exists ls,
    handler ev w s =
    (Ret (respond 200 (JArr (expected_slots (eng w) answer1 answer2))),
     mk_state (trace s ++ [EvFetch request1; EvFetch request2]) ls).
Proof.
  intros Hd. destruct handler_queried as (ls & Hr & Hi & ->). exists ls.
  unfold answer, expected_slots. rt_unfold. rewrite Hr, Hd. cbn [elements].
  destruct (Z.ltb_spec 0 (Z.of_nat (length (slots (js "Current month") (eng w) answer1
                                           ++ slots (js "Next month") (eng w) answer2))))
    as [_|Hz]; [reflexivity|].
  destruct (slots (js "Current month") (eng w) answer1 ++ _); [reflexivity|].
  cbn [length] in Hz. lia.
Qed.

(** C1: without debug flag, the handler implements the
    abstract answer: 200 with the first 12 slots of the current month
    followed by the next month (the empty list when there are none);
    its only effects are the two requests, current month first. *)
Theorem availability_refinement :
  debug_flag (Event.queryStringParameters ev) = false ->
  exists ls,
    handler ev w s =
    (Ret (respond 200 (JArr (expected_slots (eng w) answer1 answer2))),
     mk_state (trace s ++ [EvFetch request1; EvFetch request2]) ls).
Proof. exact handler_unflagged. Qed.

(** C12: with [debug=1] the answer is 200 with exactly the keys
    [appointmentTypeId], [userId], [apiKey], [debugInfo],
    [totalResults] and [sampleResults]; the credentials are always
    reported "SET" (a missing one answered earlier), [debugInfo] holds
    one line per query in order, and [sampleResults] is the first
    three slots (at most three). *)
Theorem availability_debug :
  debug_flag (Event.queryStringParameters ev) = true ->
  exists ls,
    handler ev w s =
    (Ret (respond 200 (JObj
       [(js "appointmentTypeId", type_id (Event.queryStringParameters ev));
        (js "userId", JStr (js "SET")); (js "apiKey", JStr (js "SET"));
        (js "debugInfo", JArr [JStr (diag (js "Current month") (eng w) answer1);
                               JStr (diag (js "Next month") (eng w) answer2)]);
        (js "totalResults", int_val (Z.of_nat (length all)));
        (js "sampleResults", JArr (firstn 3 all))])),
     mk_state (trace s ++ [EvFetch request1; EvFetch request2]) ls) /\
    (length (firstn 3 all) <= 3)%nat.
Proof.
  intros Hd. destruct handler_queried as (ls & Hr & Hi & ->). exists ls.
  split; [|apply length_firstn_le].
  unfold answer. rt_unfold. rewrite Hr, Hi, Hd, HUser, HKey. reflexivity.
Qed.

(** C6: failure isolation: when the current month's request fails at
    the network level and the next month's answers a JSON array of at
    most 12 slots, the answer is exactly those slots (no 500, no
    error surfaced). *)
Corollary availability_failure_isolated (msg : jstr) (resp : fetch_response)
    (text : jstr) (vs : list jsval) :
  debug_flag (Event.queryStringParameters ev) = false ->
  answer1 = FetchFail msg ->
  answer2 = FetchOk resp -> resp_ok resp = true -> resp_body resp = Some text ->
  Json.parse text = Some (JArr vs) -> (length vs <= 12)%nat ->
  exists ls,
    handler ev w s =
    (Ret (respond 200 (JArr vs)),
     mk_state (trace s ++ [EvFetch request1; EvFetch request2]) ls).
Proof.
  intros Hd H1 H2 Hok Hb Hp Hl. destruct (handler_unflagged Hd) as [ls ->].
  exists ls. unfold expected_slots, slots, query_outcome.
  rewrite H1, H2, Hok, Hb, Hp. cbn [fst app elements].
  destruct (get (JArr vs) (js "length")); cbn [fst]; rewrite firstn_all2 by exact Hl;
    reflexivity.
Qed.

End Queried.

(** One month's query sends one request. *)
Lemma sends_query_month (label url auth : jstr) : sends_at_most 1 (query_month label url auth).
Proof. unfold query_month. sends_bound. Qed.

Lemma sends_answer (debug : bool) (tid userId apiKey : jsval) :
  sends_at_most 0 (answer debug tid userId apiKey).
Proof. unfold answer. sends_bound. Qed.

(** C23: an availability request causes at most two outbound requests,
    and its handler only appends to the trace (whatever the event, the
    environment, the clock and the upstream). *)
Theorem availability_two_requests (ev : Event.t) : sends_at_most 2 (handler ev).
Proof.
  pose proof sends_query_month. pose proof sends_answer.
  unfold handler, availability, function_error, env_get, date_now. cbv zeta. sends_bound.
Qed.

(** C18: the handler does not look at the method beyond OPTIONS: a POST,
    PUT or DELETE is served exactly like a GET (the CORS header only
    advertises GET and OPTIONS). *)
Theorem availability_any_method (ev : Event.t) (m : jstr) w s :
  Event.httpMethod ev <> js "OPTIONS" -> m <> js "OPTIONS" ->
  handler (Event.mk m (Event.queryStringParameters ev) (Event.body ev)) w s = handler ev w s.
Proof.
  intros H1 H2. rewrite (handler_reads ev w s H1).
  rewrite (handler_reads (Event.mk m (Event.queryStringParameters ev) (Event.body ev)) w s H2).
  reflexivity.
Qed.

(** C14: the availability handler always answers: whatever the event,
    the environment, the clock and the upstream, its promise resolves to
    a response (every error inside the outer [try] is caught). *)
Theorem availability_total (ev : Event.t) w s :
  exists r s', handler ev w s = (Ret r, s').
Proof.
  unfold handler. destruct (Event.httpMethod ev =s? js "OPTIONS"); [do 2 eexists; reflexivity|].
  apply try_catch_total. intros e s0. unfold function_error. rt_unfold. eauto.
Qed.

(** The slots of an answer do not depend on the label of the query. *)
Lemma slots_label (l1 l2 : jstr) (e : engine) (r : fetch_result) : slots l1 e r = slots l2 e r.
Proof.
  unfold slots, query_outcome. destruct r as [resp|]; [|reflexivity].
  destruct (resp_ok resp); [|reflexivity].
  destruct (resp_body resp) as [t|]; [|reflexivity].
  destruct (Json.parse t) as [data|]; [|reflexivity]. destruct (get data _); reflexivity.
Qed.

(** C8: when the two month tokens coincide (see
    [JsDate.nextMonth_east_repeats_current]), both requests are the same
    request; an upstream that answers it twice the same way makes the
    handler return the month's slots twice over (truncated to 12), and
    the next month is never queried. *)
Theorem availability_same_month_twice (ev : Event.t) w s (cm : jstr) :
  Event.httpMethod ev <> js "OPTIONS" ->
  truthy (type_id (Event.queryStringParameters ev)) = true ->
  truthy (env_value w (js "ACUITY_USER")) = true ->
  truthy (env_value w (js "ACUITY_KEY")) = true ->
  JsDate.currentMonth (clock w) = Some cm -> JsDate.nextMonth (tz w) (clock w) = Some cm ->
  debug_flag (Event.queryStringParameters ev) = false ->
  let r := request1 ev w cm in
  fetch w (S (fetches (trace s))) r = fetch w (fetches (trace s)) r ->
  exists ls,
    handler ev w s =
    (Ret (respond 200 (JArr (firstn 12 (slots (js "Current month") (eng w) (answer1 ev w s cm)
                                        ++ slots (js "Current month") (eng w) (answer1 ev w s cm))))),
     mk_state (trace s ++ [EvFetch r; EvFetch r]) ls).
Proof.
  intros Hm Ht Hu Hk Hc Hn Hd r Hf.
  destruct (handler_unflagged ev w s cm cm Hm Ht Hu Hk Hc Hn Hd) as [ls ->].
  exists ls. unfold expected_slots. rewrite (slots_label (js "Next month") (js "Current month")).
  unfold answer2, answer1. fold r. replace (request2 ev w cm) with r by reflexivity.
  rewrite Hf. reflexivity.
Qed.

(** ** Examples *)

Lemma availability_options_witness :
  handler (Event.mk (js "OPTIONS") None None) no_credentials initial_state =
  (Ret (Response.mk 200 headers None), initial_state).
Proof. apply availability_options. reflexivity. Defined.

Lemma availability_missing_type_witness :
  handler (get_event [(js "debug", js "1")]) (sample_world 0 flaky_upstream) initial_state =
  (Ret (respond 400 (JObj [(js "error", JStr (js "Missing appointmentTypeId"))])), initial_state).
Proof. apply availability_missing_type; [vm_compute; discriminate | reflexivity]. Defined.

Lemma availability_placeholder_witness :
  fst (handler (get_event type12) no_credentials initial_state) =
  Ret (respond 200 (JArr [JObj [(js "time", JStr (js "2026-01-05T10:00:00.000Z"));
                                (js "debug", JStr placeholder_debug)]])).
Proof.
  rewrite availability_placeholder;
    [vm_compute; reflexivity | vm_compute; discriminate | reflexivity | left; reflexivity
    | vm_compute; discriminate].
Defined.

Lemma availability_refinement_witness :
  fst (handler (get_event type12) (sample_world 0 flaky_upstream) initial_state) =
  Ret (respond 200 (JArr three_slots)).
Proof.
  destruct (availability_refinement (get_event type12) (sample_world 0 flaky_upstream)
              initial_state (js "2025-12") (js "2026-01") ltac:(vm_compute; discriminate)
              eq_refl eq_refl eq_refl ltac:(vm_compute; reflexivity)
              ltac:(vm_compute; reflexivity) eq_refl) as [ls H].
  rewrite H. vm_compute. reflexivity.
Defined.

Lemma availability_debug_witness :
  fst (handler (get_event debug12) (sample_world 0 flaky_upstream) initial_state) =
  Ret (respond 200 (JObj
     [(js "appointmentTypeId", JStr (js "12"));
      (js "userId", JStr (js "SET")); (js "apiKey", JStr (js "SET"));
      (js "debugInfo", JArr [JStr (js "Current month error: fetch failed");
                             JStr (js "Next month: 3 results")]);
      (js "totalResults", JNum 3 0);
      (js "sampleResults", JArr three_slots)])).
Proof.
  destruct (availability_debug (get_event debug12) (sample_world 0 flaky_upstream)
              initial_state (js "2025-12") (js "2026-01") ltac:(vm_compute; discriminate)
              eq_refl eq_refl eq_refl ltac:(vm_compute; reflexivity)
              ltac:(vm_compute; reflexivity) eq_refl) as [ls [H _]].
  rewrite H. vm_compute. reflexivity.
Defined.

Lemma availability_failure_isolated_witness :
  fst (handler (get_event type12) (sample_world 0 flaky_upstream) initial_state) =
  Ret (respond 200 (JArr three_slots)).
Proof.
  destruct (availability_failure_isolated (get_event type12) (sample_world 0 flaky_upstream)
              initial_state (js "2025-12") (js "2026-01") ltac:(vm_compute; discriminate)
              eq_refl eq_refl eq_refl ltac:(vm_compute; reflexivity)
              ltac:(vm_compute; reflexivity) (js "fetch failed")
              (mk_response 200 (Some slots_text)) slots_text three_slots
              eq_refl eq_refl eq_refl eq_refl eq_refl eq_refl ltac:(vm_compute; lia))
    as [ls H].
  rewrite H. reflexivity.
Defined.

Lemma availability_any_method_witness :
  handler (Event.mk (js "DELETE") (Some type12) None) (sample_world 0 flaky_upstream) initial_state =
  handler (get_event type12) (sample_world 0 flaky_upstream) initial_state.
Proof. apply (availability_any_method (get_event type12)); vm_compute; discriminate. Defined.

(** An upstream answering the same three slots to every request, in
    UTC+1 at 2025-12-01T00:00Z: December's slots come back twice. *)
Lemma availability_same_month_twice_witness :
  fst (handler (get_event type12)
         (mk_world [(js "ACUITY_USER", js "1234"); (js "ACUITY_KEY", js "secret")]
            1764547200000 3600000 (fun _ _ => FetchOk (mk_response 200 (Some slots_text)))
            node_engine) initial_state) =
  Ret (respond 200 (JArr (three_slots ++ three_slots))).
Proof.
  destruct (availability_same_month_twice (get_event type12)
              (mk_world [(js "ACUITY_USER", js "1234"); (js "ACUITY_KEY", js "secret")]
                 1764547200000 3600000 (fun _ _ => FetchOk (mk_response 200 (Some slots_text)))
                 node_engine)
              initial_state (js "2025-12") ltac:(vm_compute; discriminate)
              eq_refl eq_refl eq_refl ltac:(vm_compute; reflexivity)
              ltac:(vm_compute; reflexivity) eq_refl eq_refl) as [ls H].
  rewrite H. vm_compute. reflexivity.
Defined.

End Availability.
